(** * MPIN validation: a shallow embedding of [mpin_validator.py]

    The development follows the Python module function by function.

    - A Python [str] is a sequence of Unicode code points: [str := list N].
    - [str.isdigit] and [int] on a one-character string are functions of the
      Unicode character database of the interpreter; [Module Unicode] holds
      their table.
    - A Python function that may raise has type [result A]; [try]/[except]
      and the short-circuit [or] are written out.
    - [date.today().year], the only thing the module reads from its
      environment, is the explicit parameter [current_year].
    - [set] and [dict] values are stdpp's [gset] and [gmap]. *)

From Stdlib Require Import ZArith Lia Ascii String.
From stdpp Require Import gmap strings list sorting.

Set Warnings "-clear-no-such-hyp".
Local Open Scope Z_scope.

(** ** Python values *)

(** A Python string, as its code points. *)
Definition str : Type := list N.

(** The code point of an ASCII character, and the [str] of an ASCII literal. *)
Definition chr (a : ascii) : N := N_of_ascii a.
Definition py (s : string) : str := chr <$> list_ascii_of_string s.

(** The [Numeric_Type] property of the Unicode Character Database
    (DerivedNumericType, version 15.0), as far as [str.isdigit] and [int]
    read it. *)
Module Unicode.

(** The [Numeric_Type] property of a code point, as far as [str.isdigit]
    and [int] look at it: [Decimal v] (general category Nd, digit value
    [v]), [Digit] (digits that are no decimal digits, such as the
    superscripts), or neither. *)
Inductive numeric_type : Type :=
| Decimal (v : Z)
| Digit
| NotDigit.

(** First code points of the runs of ten decimal digits (Nd), Unicode 15. *)
Definition decimal_blocks : list N :=
  [ 0x0030; 0x0660; 0x06F0; 0x07C0; 0x0966; 0x09E6; 0x0A66; 0x0AE6;
    0x0B66; 0x0BE6; 0x0C66; 0x0CE6; 0x0D66; 0x0DE6; 0x0E50; 0x0ED0;
    0x0F20; 0x1040; 0x1090; 0x17E0; 0x1810; 0x1946; 0x19D0; 0x1A80;
    0x1A90; 0x1B50; 0x1BB0; 0x1C40; 0x1C50; 0xA620; 0xA8D0; 0xA900;
    0xA9D0; 0xA9F0; 0xAA50; 0xABF0; 0xFF10; 0x104A0; 0x10D30; 0x11066;
    0x110F0; 0x11136; 0x111D0; 0x112F0; 0x11450; 0x114D0; 0x11650;
    0x116C0; 0x11730; 0x118E0; 0x11950; 0x11C50; 0x11D50; 0x11DA0;
    0x11F50; 0x16A60; 0x16AC0; 0x16B50;
    0x1D7CE; 0x1D7D8; 0x1D7E2; 0x1D7EC; 0x1D7F6;
    0x1E140; 0x1E2F0; 0x1E4F0; 0x1E950; 0x1FBF0 ]%N.

(** Inclusive ranges of the code points with [Numeric_Type=Digit]. *)
Definition digit_ranges : list (N * N) :=
  [ (0x00B2, 0x00B3); (0x00B9, 0x00B9); (0x1369, 0x1371);
    (0x19DA, 0x19DA); (0x2070, 0x2070); (0x2074, 0x2079);
    (0x2080, 0x2089); (0x2460, 0x2468); (0x2474, 0x247C);
    (0x2488, 0x2490); (0x24EA, 0x24EA); (0x24F5, 0x24FD);
    (0x24FF, 0x24FF); (0x2776, 0x277E); (0x2780, 0x2788);
    (0x278A, 0x2792); (0x10A40, 0x10A43); (0x10E60, 0x10E68);
    (0x11052, 0x1105A); (0x1F100, 0x1F10A) ]%N.

Definition in_block (c b : N) : bool := ((b <=? c) && (c <? b + 10))%N.
Definition in_range (c : N) (r : N * N) : bool :=
  ((r.1 <=? c) && (c <=? r.2))%N.

Definition numeric_type_of (c : N) : numeric_type :=
  match List.find (in_block c) decimal_blocks with
  | Some b => Decimal (Z.of_N (c - b))
  | None => if existsb (in_range c) digit_ranges then Digit else NotDigit
  end.

(** [c.isdigit()] for a single character. *)
Definition isdigit (c : N) : bool :=
  match numeric_type_of c with
  | Decimal _ | Digit => true
  | NotDigit => false
  end.

End Unicode.

(** Exceptions the module can raise, and results of calls that may raise. *)
Inductive exn : Type := ValueError | KeyError | IndexError.

Inductive result (A : Type) : Type :=
| Returns (a : A)
| Raises (e : exn).
Arguments Returns {A} a.
Arguments Raises {A} e.

#[export] Instance result_ret : MRet result := λ A a, Returns a.
#[export] Instance result_bind : MBind result := λ A B f m,
  match m with
  | Returns a => f a
  | Raises e => Raises e
  end.

(** [l[i]] for a non-negative index: [IndexError] out of range. *)
Definition index {A} (l : list A) (i : nat) : result A :=
  match l !! i with
  | Some x => Returns x
  | None => Raises IndexError
  end.

(** [m[k]] on a [dict]: [KeyError] on a missing key. *)
Definition getitem `{Countable K} {V} (m : gmap K V) (k : K) : result V :=
  match m !! k with
  | Some v => Returns v
  | None => Raises KeyError
  end.

(** [int(d)] for a one-character string [d]. *)
Definition int (d : N) : result Z :=
  match Unicode.numeric_type_of d with
  | Unicode.Decimal v => Returns v
  | _ => Raises ValueError
  end.

(** [s.isdigit()]: false on the empty string. *)
Definition isdigit (s : str) : bool :=
  match s with
  | [] => false
  | _ => forallb Unicode.isdigit s
  end.

(** [pattern * k]. *)
Definition str_repeat (pattern : str) (k : nat) : str :=
  mjoin (replicate k pattern).

(** Decimal digits of a natural number, most significant first. *)
Fixpoint uint_digits (u : Decimal.uint) : str :=
  match u with
  | Decimal.Nil => []
  | Decimal.D0 u => chr "0" :: uint_digits u
  | Decimal.D1 u => chr "1" :: uint_digits u
  | Decimal.D2 u => chr "2" :: uint_digits u
  | Decimal.D3 u => chr "3" :: uint_digits u
  | Decimal.D4 u => chr "4" :: uint_digits u
  | Decimal.D5 u => chr "5" :: uint_digits u
  | Decimal.D6 u => chr "6" :: uint_digits u
  | Decimal.D7 u => chr "7" :: uint_digits u
  | Decimal.D8 u => chr "8" :: uint_digits u
  | Decimal.D9 u => chr "9" :: uint_digits u
  end.

(** [f"{n:02d}"]: sign-aware zero padding to width two. *)
Definition format_02d (n : Z) : str :=
  if bool_decide (n < 0)
  then chr "-" :: uint_digits (N.to_uint (Z.to_N (- n)))
  else
    let s := uint_digits (N.to_uint (Z.to_N n)) in
    replicate (2 - length s)%nat (chr "0") ++ s.

(** ** The reason codes *)

Definition REASON_COMMONLY_USED : string := "COMMONLY_USED".
Definition REASON_DOB_SELF : string := "DEMOGRAPHIC_DOB_SELF".
Definition REASON_DOB_SPOUSE : string := "DEMOGRAPHIC_DOB_SPOUSE".
Definition REASON_ANNIVERSARY : string := "DEMOGRAPHIC_ANNIVERSARY".

(** ** Structural detectors *)

(** The [for i in range(1, len(digits) - 1)] loop of [is_sequence]. *)
Fixpoint is_sequence_loop (digits : list Z) (step : Z) (range : list nat)
  : result bool :=
  match range with
  | [] => Returns true
  | i :: range =>
      d ← index digits i;
      let expected_next := (d + step) `mod` 10 in
      d' ← index digits (i + 1);
      if bool_decide (d' ≠ expected_next) then Returns false
      else is_sequence_loop digits step range
  end.

Definition is_sequence (pin : str) : result bool :=
  if bool_decide (length pin < 2)%nat then Returns false
  else
    digits ← mapM int pin;
    d1 ← index digits 1;
    d0 ← index digits 0;
    let step := (d1 - d0) `mod` 10 in
    let step := if bool_decide (step > 5) then step - 10 else step in
    is_sequence_loop digits step (seq 1 (length digits - 1 - 1)).

(** The [for pattern_length in range(1, pin_length // 2 + 1)] loop. *)
Fixpoint is_repetition_loop (pin : str) (range : list nat) : bool :=
  match range with
  | [] => false
  | pattern_length :: range =>
      if bool_decide (length pin `mod` pattern_length = 0)%nat
      then
        let pattern := take pattern_length pin in
        if bool_decide
             (str_repeat pattern (length pin `div` pattern_length) = pin)
        then true
        else is_repetition_loop pin range
      else is_repetition_loop pin range
  end.

Definition is_repetition (pin : str) : bool :=
  let pin_length := length pin in
  if bool_decide (pin_length < 2)%nat then false
  else if bool_decide (size (list_to_set pin : gset N) = 1%nat) then true
  else is_repetition_loop pin (seq 1 (pin_length `div` 2 + 1 - 1)).

Definition is_palindrome (pin : str) : bool :=
  bool_decide (pin = reverse pin).

(** ** Keypad patterns *)

Definition KEYPAD_COORDS : gmap N (Z * Z) :=
  list_to_map
    [ (chr "1", (0, 0)); (chr "2", (1, 0)); (chr "3", (2, 0));
      (chr "4", (0, 1)); (chr "5", (1, 1)); (chr "6", (2, 1));
      (chr "7", (0, 2)); (chr "8", (1, 2)); (chr "9", (2, 2));
      (chr "0", (1, 3)) ].

Definition _is_collinear (p1 p2 p3 : Z * Z) : bool :=
  let '(x1, y1) := p1 in
  let '(x2, y2) := p2 in
  let '(x3, y3) := p3 in
  bool_decide ((y2 - y1) * (x3 - x2) = (y3 - y2) * (x2 - x1)).

(** The straight-line loop: [is_line] after the loop (a [break] leaves it
    with [False]). *)
Fixpoint is_line_loop (coords : list (Z * Z)) (range : list nat)
  : result bool :=
  match range with
  | [] => Returns true
  | i :: range =>
      p1 ← index coords i;
      p2 ← index coords (i + 1);
      p3 ← index coords (i + 2);
      if negb (_is_collinear p1 p2 p3) then Returns false
      else is_line_loop coords range
  end.

(** The L-shape loop: [right_angles] after the loop. *)
Fixpoint right_angles_loop (coords : list (Z * Z)) (right_angles : Z)
    (range : list nat) : result Z :=
  match range with
  | [] => Returns right_angles
  | i :: range =>
      a ← index coords i;
      b ← index coords (i - 1);
      let dx1 := a.1 - b.1 in
      a ← index coords i;
      b ← index coords (i - 1);
      let dy1 := a.2 - b.2 in
      a ← index coords (i + 1);
      b ← index coords i;
      let dx2 := a.1 - b.1 in
      a ← index coords (i + 1);
      b ← index coords i;
      let dy2 := a.2 - b.2 in
      let right_angles :=
        if bool_decide (dx1 * dx2 + dy1 * dy2 = 0) then right_angles + 1
        else right_angles in
      right_angles_loop coords right_angles range
  end.

Definition corner_patterns : gset str :=
  {[ py "1397"; py "1793"; py "3179"; py "3971";
     py "7139"; py "7931"; py "9317"; py "9713" ]}.

Definition is_keypad_pattern (pin : str) : result bool :=
  if bool_decide (length pin < 3)%nat then Returns false
  else
    match mapM (getitem KEYPAD_COORDS) pin with
    | Raises KeyError => Returns false
    | Raises e => Raises e
    | Returns coords =>
        is_line ←
          (if bool_decide (3 ≤ length coords)%nat
           then is_line_loop coords (seq 0 (length coords - 2))
           else Returns false);
        if (is_line : bool) then Returns true
        else
          l_shape ←
            (if bool_decide (length coords = 4%nat)
             then
               right_angles ← right_angles_loop coords 0 (seq 1 (3 - 1));
               Returns (bool_decide (right_angles = 1))
             else Returns false);
          if (l_shape : bool) then Returns true
          else if bool_decide (pin ∈ corner_patterns) then Returns true
          else Returns false
    end.

(** ** Dates *)

(** A date as the module reads it: the three integer attributes. *)
Record date : Type := Date { year : Z; month : Z; day : Z }.

Definition _is_valid_date (d : date) : bool :=
  if bool_decide (month d < 1) || bool_decide (month d > 12) then false
  else if bool_decide (month d ∈ ({[1; 3; 5; 7; 8; 10; 12]} : gset Z))
  then bool_decide (1 ≤ day d) && bool_decide (day d ≤ 31)
  else if bool_decide (month d ∈ ({[4; 6; 9; 11]} : gset Z))
  then bool_decide (1 ≤ day d) && bool_decide (day d ≤ 30)
  else
    let is_leap :=
      (bool_decide (year d `mod` 4 = 0) && bool_decide (year d `mod` 100 ≠ 0))
      || bool_decide (year d `mod` 400 = 0) in
    bool_decide (1 ≤ day d)
    && bool_decide (day d ≤ (if is_leap then 29 else 28)).

(** One round of the [for century in ...] loop of [generate_date_pins]. *)
Definition add_century_pins (d : date) (dd mm : str) (pins : gset str)
    (century : Z) : gset str :=
  let year_in_century := year d - century in
  if bool_decide (0 ≤ year_in_century) && bool_decide (year_in_century < 100)
  then
    let yy := format_02d year_in_century in
    let pins := pins ∪ {[ dd ++ mm ++ yy ]} in
    let pins := pins ∪ {[ mm ++ dd ++ yy ]} in
    pins ∪ {[ yy ++ mm ++ dd ]}
  else pins.

(** [len(p) in {4, 6} and p.isdigit()], the condition of the final
    comprehension. *)
Definition keeps (p : str) : bool :=
  bool_decide (length p ∈ ({[4%nat; 6%nat]} : gset nat)) && isdigit p.

Definition generate_date_pins (current_year : Z) (d : date) : gset str :=
  if negb (_is_valid_date d) then ∅
  else
    let pins : gset str := ∅ in
    let dd := format_02d (day d) in
    let mm := format_02d (month d) in
    let current_century := current_year `div` 100 * 100 in
    let pins := pins ∪ {[ dd ++ mm ]} in
    let pins := pins ∪ {[ mm ++ dd ]} in
    let pins :=
      foldl (add_century_pins d dd mm) pins
        [current_century - 100; current_century] in
    let yy_direct := format_02d (year d `mod` 100) in
    let pins := pins ∪ {[ dd ++ mm ++ yy_direct ]} in
    let pins := pins ∪ {[ mm ++ dd ++ yy_direct ]} in
    let pins := pins ∪ {[ yy_direct ++ mm ++ dd ]} in
    filter (λ p, keeps p) pins.

(** ** The classifier *)

(** The returned [dict], with its two keys. *)
Record verdict : Type := Verdict { strength : string; reasons : list string }.

(** [dob and _is_valid_date(dob) and pin in generate_date_pins(dob)] for an
    optional date ([None] is falsy, a date is truthy). *)
Definition matches_date (current_year : Z) (pin : str) (dob : option date)
  : bool :=
  match dob with
  | None => false
  | Some d =>
      _is_valid_date d && bool_decide (pin ∈ generate_date_pins current_year d)
  end.

(** [is_sequence(pin) or is_repetition(pin) or is_palindrome(pin) or
    is_keypad_pattern(pin)], evaluated left to right. *)
Definition commonly_used (pin : str) : result bool :=
  b ← is_sequence pin;
  if (b : bool) then Returns true
  else if is_repetition pin then Returns true
  else if is_palindrome pin then Returns true
  else is_keypad_pattern pin.

Definition check_pin_strength (current_year : Z) (pin : str)
    (dob_self dob_spouse anniversary : option date) : result verdict :=
  let reasons : list string := [] in
  if negb (bool_decide (pin ≠ []))
     || negb (isdigit pin)
     || negb (bool_decide (length pin ∈ ({[4%nat; 6%nat]} : gset nat)))
  then Returns {| strength := "STRONG"; reasons := [] |}
  else
    common ← commonly_used pin;
    let reasons :=
      if (common : bool) then reasons ++ [REASON_COMMONLY_USED]
      else reasons in
    let reasons :=
      if matches_date current_year pin dob_self
      then reasons ++ [REASON_DOB_SELF] else reasons in
    let reasons :=
      if matches_date current_year pin dob_spouse
      then reasons ++ [REASON_DOB_SPOUSE] else reasons in
    let reasons :=
      if matches_date current_year pin anniversary
      then reasons ++ [REASON_ANNIVERSARY] else reasons in
    Returns {| strength := if bool_decide (reasons ≠ []) then "WEAK"
                           else "STRONG";
               reasons := reasons |}.

(** ** The test suite *)

(** [sorted] on a list of [str]: Python orders strings by code points. *)
Definition sorted (l : list string) : list string :=
  merge_sort (λ a b, Is_true (String.leb a b)) l.

(** An entry of [test_cases]: a date key that the entry does not have is
    [None], which is what the keyword defaults make of it. *)
Record test_case : Type := TestCase {
  test_name : string;
  test_pin : str;
  test_dob_self : option date;
  test_dob_spouse : option date;
  test_anniversary : option date;
  test_expected : verdict
}.

Definition pin_test (name : string) (pin : str) (expected : verdict)
  : test_case :=
  TestCase name pin None None None expected.

Definition test_cases : list test_case :=
  let strong := Verdict "STRONG" [] in
  let common := Verdict "WEAK" [REASON_COMMONLY_USED] in
  [ pin_test "Invalid PIN - too short" (py "123") strong;
    pin_test "Invalid PIN - too long" (py "12345") strong;
    pin_test "Invalid PIN - non-numeric" (py "123a") strong;
    pin_test "Invalid PIN - empty" [] strong;
    pin_test "Strong PIN - a known uncommon one" (py "8068") strong;
    pin_test "Strong PIN - corners in a random order" (py "1739") strong;
    pin_test "Strong PIN - almost a sequence" (py "1235") strong;
    pin_test "Strong PIN - looks like a pattern but isn't common"
      (py "1358") strong;
    pin_test "Sequence - simple increasing" (py "1234") common;
    pin_test "Sequence - wrap-around" (py "8901") common;
    pin_test "Sequence - decreasing" (py "9876") common;
    pin_test "Sequence - even numbers" (py "2468") common;
    pin_test "Repetition - all same digit" (py "1111") common;
    pin_test "Repetition - paired digits" (py "1212") common;
    pin_test "Repetition - three-digit pattern" (py "123123") common;
    pin_test "Keypad - vertical line" (py "2580") common;
    pin_test "Keypad - horizontal line" (py "456") common;
    pin_test "Keypad - diagonal line" (py "159") common;
    pin_test "Keypad - L-shape" (py "1478") common;
    pin_test "Keypad - corners in sequence" (py "1397") common;
    pin_test "Keypad - corners not in sequence" (py "1739") strong;
    TestCase "DOB - Self (DDMM)" (py "0503")
      (Some (Date 1990 3 5)) None None (Verdict "WEAK" [REASON_DOB_SELF]);
    TestCase "DOB - Self (MMDD)" (py "0305")
      (Some (Date 1990 3 5)) None None (Verdict "WEAK" [REASON_DOB_SELF]);
    TestCase "DOB - Spouse (YYMMDD)" (py "900305")
      None (Some (Date 1990 3 5)) None (Verdict "WEAK" [REASON_DOB_SPOUSE]);
    TestCase "Anniversary (DDMMYY)" (py "050390")
      None None (Some (Date 1990 3 5)) (Verdict "WEAK" [REASON_ANNIVERSARY]);
    TestCase "Century Ambiguity - 1900s" (py "020198")
      (Some (Date 1998 1 2)) None None (Verdict "WEAK" [REASON_DOB_SELF]);
    TestCase "Century Ambiguity - 2000s" (py "020104")
      (Some (Date 2004 1 2)) None None (Verdict "WEAK" [REASON_DOB_SELF]);
    TestCase "Date Test - Non-leap year" (py "2902")
      (Some (Date 1999 2 28)) None None strong;
    TestCase "Multiple reasons - Sequence and DOB" (py "1234")
      (Some (Date 2012 3 4)) None None
      (Verdict "WEAK" [REASON_COMMONLY_USED; REASON_DOB_SELF]);
    TestCase "Multiple reasons - Repetition and Anniversary" (py "1212")
      None None (Some (Date 1912 12 1))
      (Verdict "WEAK" [REASON_COMMONLY_USED; REASON_ANNIVERSARY]) ].

(** The body of the loop of [run_tests], without what it prints: whether the
    test counts as passed.  Any exception is caught and the test is not
    counted. *)
Definition run_test (current_year : Z) (test : test_case) : bool :=
  match check_pin_strength current_year (test_pin test) (test_dob_self test)
          (test_dob_spouse test) (test_anniversary test) with
  | Returns result =>
      let expected_reasons := sorted (reasons (test_expected test)) in
      let actual_reasons := sorted (reasons result) in
      bool_decide (strength result = strength (test_expected test))
      && bool_decide (actual_reasons = expected_reasons)
  | Raises _ => false
  end.

(** [passed] after the loop. *)
Definition run_tests_passed (current_year : Z) : Z :=
  foldl (λ passed test,
           if run_test current_year test then passed + 1 else passed)
    0 test_cases.

(** The value [run_tests] returns. *)
Definition run_tests (current_year : Z) : bool :=
  let passed := run_tests_passed current_year in
  let total := Z.of_nat (length test_cases) in
  bool_decide (passed = total).

(** * Vocabulary of the statements *)

(** The ten ASCII digits [0]..[9]. *)
Definition ascii_digit (c : N) : bool := ((48 <=? c) && (c <=? 57))%N.

(** What [f"{n:02d}"] gives on the range the date projector uses it on. *)
Definition two_digits (s : str) : bool :=
  bool_decide (length s = 2%nat) && forallb ascii_digit s.

(** Position [i + 1] holds the digit at position [i] plus [step], modulo 10. *)
Definition follows (digits : list Z) (step : Z) (i : nat) : Prop :=
  ∀ a b, digits !! i = Some a → digits !! (i + 1)%nat = Some b →
         b = (a + step) `mod` 10.

(** An arithmetic progression modulo 10 whose step is the difference of the
    first two digits. *)
Definition progression_mod10 (digits : list Z) : Prop :=
  ∃ d0 d1, digits !! 0%nat = Some d0 ∧ digits !! 1%nat = Some d1 ∧
    ∀ i, (1 ≤ i)%nat → follows digits (d1 - d0) i.

(** The five strings a valid date projects to. *)
Definition date_pins (d : date) : gset str :=
  let dd := format_02d (day d) in
  let mm := format_02d (month d) in
  let yy := format_02d (year d `mod` 100) in
  {[ dd ++ mm; mm ++ dd; dd ++ mm ++ yy; mm ++ dd ++ yy; yy ++ mm ++ dd ]}.

(** The reasons list and the strength, from the three things the
    classifier computes after the format gate. *)
Definition reasons_of (common self spouse anniv : bool) : list string :=
  (if common then [REASON_COMMONLY_USED] else [])
  ++ (if self then [REASON_DOB_SELF] else [])
  ++ (if spouse then [REASON_DOB_SPOUSE] else [])
  ++ (if anniv then [REASON_ANNIVERSARY] else []).

Definition gate_fails (pin : str) : bool :=
  negb (bool_decide (pin ≠ []))
  || negb (isdigit pin)
  || negb (bool_decide (length pin ∈ ({[4%nat; 6%nat]} : gset nat))).

(** A verdict whose strength is WEAK or STRONG and whose reasons are among
    the four reason codes. *)
Definition well_formed (v : verdict) : Prop :=
  strength v ∈ ["WEAK"; "STRONG"]
  ∧ Forall (λ r, r ∈ [REASON_COMMONLY_USED; REASON_DOB_SELF;
                       REASON_DOB_SPOUSE; REASON_ANNIVERSARY])
      (reasons v).

(** What one round of the loop of [is_repetition] tests. *)
Definition tiles (pin : str) (pattern_length : nat) : Prop :=
  (length pin `mod` pattern_length = 0)%nat
  ∧ str_repeat (take pattern_length pin) (length pin `div` pattern_length)
    = pin.

(** A leap year of the Gregorian calendar. *)
Definition leap_year (y : Z) : Prop :=
  (y `mod` 4 = 0 ∧ y `mod` 100 ≠ 0) ∨ y `mod` 400 = 0.

(** The verdict the classifier builds from its reasons list. *)
Definition verdict_of (rs : list string) : verdict :=
  {| strength := if bool_decide (rs ≠ []) then "WEAK" else "STRONG";
     reasons := rs |}.

(** The four reason codes, in the order the classifier appends them. *)
Definition REASONS : list string :=
  [REASON_COMMONLY_USED; REASON_DOB_SELF; REASON_DOB_SPOUSE;
   REASON_ANNIVERSARY].

(** The code points of [0]..[9]. *)
Definition ascii_digits : list N := [48; 49; 50; 51; 52; 53; 54; 55; 56; 57]%N.

(** Every string of four ASCII digits, once. *)
Definition four_digit_pins : list str :=
  a ← ascii_digits; b ← ascii_digits; c ← ascii_digits; d ← ascii_digits;
  [[a; b; c; d]].

(** The number a string of ASCII digits writes. *)
Definition number_of_pin (p : str) : N :=
  foldl (λ n c, (10 * n + (c - 48))%N) 0%N p.

(** The call returned [True]. *)
Definition returns_true (r : result bool) : bool :=
  match r with
  | Returns b => b
  | Raises _ => false
  end.

(** The call returned a verdict of strength WEAK. *)
Definition is_weak (r : result verdict) : bool :=
  match r with
  | Returns v => bool_decide (strength v = "WEAK")
  | Raises _ => false
  end.

(** How many strings of [l] satisfy [f]. *)
Definition count (f : str → bool) (l : list str) : nat :=
  length (filter (λ p, f p = true) l).

(** * Properties *)

(** ** Characters and formatting *)

Lemma ascii_digit_cases (c : N) :
  ascii_digit c = true → c ∈ [48; 49; 50; 51; 52; 53; 54; 55; 56; 57]%N.
Proof.
  unfold ascii_digit. intros H.
  apply andb_true_iff in H as [H1 H2].
  apply N.leb_le in H1, H2.
  assert (Hc : c = N.of_nat (N.to_nat c)) by (by rewrite N2Nat.id).
  assert (Hn : (48 ≤ N.to_nat c ≤ 57)%nat) by lia.
  rewrite Hc. clear Hc H1 H2. revert Hn. generalize (N.to_nat c) as n.
  intros n Hn.
  do 48 (destruct n as [|n]; [lia|]).
  do 10 (destruct n as [|n]; [cbv; repeat constructor|]).
  lia.
Qed.

Lemma ascii_digit_decimal (c : N) :
  ascii_digit c = true →
  Unicode.numeric_type_of c = Unicode.Decimal (Z.of_N c - 48).
Proof.
  intros H%ascii_digit_cases.
  repeat (apply elem_of_cons in H as [->|H]; [reflexivity|]).
  by apply elem_of_nil in H.
Qed.

Lemma ascii_digit_isdigit (c : N) :
  ascii_digit c = true → Unicode.isdigit c = true.
Proof.
  intros H. unfold Unicode.isdigit. by rewrite (ascii_digit_decimal c H).
Qed.

Lemma isdigit_ascii (s : str) :
  s ≠ [] → forallb ascii_digit s = true → isdigit s = true.
Proof.
  intros Hne H. destruct s as [|c s]; [done|].
  unfold isdigit. apply forallb_forall. intros x Hx.
  apply ascii_digit_isdigit. by eapply forallb_forall in H.
Qed.

Lemma format_02d_two_digits (n : Z) :
  0 ≤ n < 100 → two_digits (format_02d n) = true.
Proof.
  intros Hn.
  assert (Hall : forallb (λ k, two_digits (format_02d (Z.of_nat k)))
                   (seq 0 100) = true) by (vm_compute; reflexivity).
  rewrite forallb_forall in Hall.
  specialize (Hall (Z.to_nat n)).
  rewrite Z2Nat.id in Hall by lia.
  apply Hall, in_seq. lia.
Qed.

Lemma two_digits_inv (s : str) :
  two_digits s = true → length s = 2%nat ∧ forallb ascii_digit s = true.
Proof.
  unfold two_digits. intros [H1 H2]%andb_true_iff.
  split; [by apply bool_decide_eq_true in H1 | done].
Qed.

(** ** Raising and returning *)

Lemma mapM_Returns_length {A B} (f : A → result B) (l : list A) (k : list B) :
  mapM f l = Returns k → length k = length l.
Proof.
  revert k. induction l as [|x l IH]; intros k; simpl.
  - by intros [= <-].
  - destruct (f x) as [y|e]; simpl; [|discriminate].
    destruct (mapM f l) as [k'|e]; simpl; [|discriminate].
    intros [= <-]. simpl. f_equal. by apply IH.
Qed.

Lemma index_Returns {A} (l : list A) (i : nat) (x : A) :
  index l i = Returns x ↔ l !! i = Some x.
Proof.
  unfold index. destruct (l !! i); split; intros; simplify_eq; done.
Qed.

Lemma index_in_range {A} (l : list A) (i : nat) :
  (i < length l)%nat → ∃ x, l !! i = Some x ∧ index l i = Returns x.
Proof.
  intros [x Hx]%lookup_lt_is_Some. exists x. split; [done|].
  by apply index_Returns.
Qed.

(** ** The sequence detector *)

Lemma is_sequence_loop_spec (digits : list Z) (step : Z) (range : list nat) :
  Forall (λ i, (i + 1 < length digits)%nat) range →
  ∃ r, is_sequence_loop digits step range = Returns r
       ∧ (r = true ↔ Forall (follows digits step) range).
Proof.
  induction 1 as [|i range Hi _ IH]; simpl.
  - exists true. split; [done|]. split; [constructor|done].
  - destruct (index_in_range digits i) as (a & Ha & ->); [lia|].
    destruct (index_in_range digits (i + 1)) as (b & Hb & ->); [lia|].
    simpl. case_bool_decide as Hne.
    + exists false. split; [done|]. split; [done|].
      intros Hall. apply Forall_cons in Hall as [Hf _].
      by specialize (Hf a b Ha Hb).
    + destruct IH as (r & -> & Hr). exists r. split; [done|].
      rewrite Hr, Forall_cons. split; [|tauto].
      intros Hall. split; [|done].
      intros a' b' Ha' Hb'. by simplify_eq.
Qed.

Lemma follows_normalised (digits : list Z) (raw : Z) (i : nat) :
  let step := raw `mod` 10 in
  let step := if bool_decide (step > 5) then step - 10 else step in
  follows digits step i ↔ follows digits raw i.
Proof.
  cbv zeta.
  assert (Heq : ∀ a,
    (a + (if bool_decide (raw `mod` 10 > 5) then raw `mod` 10 - 10
          else raw `mod` 10)) `mod` 10 = (a + raw) `mod` 10).
  { intros a. case_bool_decide.
    - replace (a + (raw `mod` 10 - 10)) with (a + raw `mod` 10 + (-1) * 10)
        by lia.
      by rewrite Z.mod_add, Zplus_mod_idemp_r by lia.
    - by rewrite Zplus_mod_idemp_r. }
  unfold follows. split; intros H a b Ha Hb.
  - rewrite <- Heq. by apply H.
  - rewrite Heq. by apply H.
Qed.

(** On a PIN all of whose characters [int] accepts, [is_sequence] returns,
    and returns [True] exactly on the progressions. *)
Lemma is_sequence_spec (pin : str) (digits : list Z) :
  mapM int pin = Returns digits →
  ∃ r, is_sequence pin = Returns r ∧ (r = true ↔ progression_mod10 digits).
Proof.
  intros Hd. pose proof (mapM_Returns_length _ _ _ Hd) as Hlen.
  unfold is_sequence. rewrite Hd. case_bool_decide as Hshort.
  - exists false. split; [done|]. split; [done|].
    intros (d0 & d1 & _ & H1%lookup_lt_Some & _). lia.
  - simpl.
    destruct (index_in_range digits 1) as (d1 & H1 & ->); [lia|].
    destruct (index_in_range digits 0) as (d0 & H0 & ->); [lia|].
    simpl.
    match goal with |- context [is_sequence_loop digits ?st ?rg] =>
      destruct (is_sequence_loop_spec digits st rg) as (r & -> & Hr)
    end.
    { apply Forall_forall. intros i Hi%elem_of_seq. lia. }
    exists r. split; [done|]. rewrite Hr. split.
    + intros Hall. exists d0, d1. split_and!; [done..|].
      intros i Hi. destruct (decide (i + 1 < length digits)%nat) as [Hlt|Hge].
      * apply (follows_normalised digits (d1 - d0) i).
        rewrite Forall_forall in Hall. apply Hall, elem_of_seq. lia.
      * intros a b _ Hb%lookup_lt_Some. lia.
    + intros (d0' & d1' & H0' & H1' & Hall).
      rewrite H0 in H0'. rewrite H1 in H1'.
      injection H0' as <-. injection H1' as <-.
      apply Forall_forall. intros i Hi%elem_of_seq.
      apply (follows_normalised digits (d1 - d0) i), Hall. lia.
Qed.

(** ** The keypad detector never raises *)

Lemma mapM_getitem_cases (pin : str) :
  (∃ coords, mapM (getitem KEYPAD_COORDS) pin = Returns coords
             ∧ length coords = length pin)
  ∨ mapM (getitem KEYPAD_COORDS) pin = Raises KeyError.
Proof.
  induction pin as [|c pin IH]; simpl.
  - left. by exists [].
  - destruct (getitem KEYPAD_COORDS c) as [xy|e] eqn:Hg; simpl.
    + destruct IH as [(coords & -> & Hlen) | ->]; simpl.
      * left. exists (xy :: coords). split; [done|]. simpl. by rewrite Hlen.
      * by right.
    + right. unfold getitem in Hg.
      by destruct (KEYPAD_COORDS !! c); simplify_eq.
Qed.

Lemma is_line_loop_returns (coords : list (Z * Z)) (range : list nat) :
  Forall (λ i, (i + 2 < length coords)%nat) range →
  ∃ b, is_line_loop coords range = Returns b.
Proof.
  induction 1 as [|i range Hi _ IH]; simpl; [by eexists|].
  destruct (index_in_range coords i) as (p1 & _ & ->); [lia|].
  destruct (index_in_range coords (i + 1)) as (p2 & _ & ->); [lia|].
  destruct (index_in_range coords (i + 2)) as (p3 & _ & ->); [lia|].
  simpl. destruct (_is_collinear p1 p2 p3); simpl; [done|by eexists].
Qed.

Lemma right_angles_loop_returns (coords : list (Z * Z)) (n : Z)
    (range : list nat) :
  Forall (λ i, (i + 1 < length coords)%nat) range →
  ∃ r, right_angles_loop coords n range = Returns r.
Proof.
  intros H. revert n. induction H as [|i range Hi _ IH]; intros n; simpl;
    [by eexists|].
  destruct (index_in_range coords i) as (p & _ & ->); [lia|].
  destruct (index_in_range coords (i - 1)) as (q & _ & ->); [lia|].
  destruct (index_in_range coords (i + 1)) as (r & _ & ->); [lia|].
  simpl. apply IH.
Qed.

Lemma is_keypad_pattern_returns (pin : str) :
  ∃ b, is_keypad_pattern pin = Returns b.
Proof.
  unfold is_keypad_pattern. case_bool_decide as Hlen; [by eexists|].
  destruct (mapM_getitem_cases pin) as [(coords & -> & Hc) | ->];
    [|by eexists].
  rewrite (bool_decide_eq_true_2 (3 ≤ length coords)%nat) by lia.
  destruct (is_line_loop_returns coords (seq 0 (length coords - 2)))
    as [is_line ->].
  { apply Forall_forall. intros i Hi%elem_of_seq. lia. }
  cbn [mbind result_bind]. destruct is_line; [by eexists|].
  destruct (decide (length coords = 4%nat)) as [H4|H4].
  - rewrite (bool_decide_eq_true_2 _ H4).
    destruct (right_angles_loop_returns coords 0 (seq 1 (3 - 1)))
      as [r ->].
    { apply Forall_forall. intros i Hi%elem_of_seq. lia. }
    cbn [mbind result_bind].
    destruct (bool_decide (r = 1)); [by eexists|].
    destruct (bool_decide (pin ∈ corner_patterns)); by eexists.
  - rewrite (bool_decide_eq_false_2 _ H4). cbn [mbind result_bind].
    destruct (bool_decide (pin ∈ corner_patterns)); by eexists.
Qed.

(** ** When [int] raises *)

Lemma mapM_int_cases (pin : str) :
  (∃ digits, mapM int pin = Returns digits)
  ∨ (mapM int pin = Raises ValueError
     ∧ ∃ c, c ∈ pin ∧ int c = Raises ValueError).
Proof.
  induction pin as [|c pin IH]; simpl.
  - left. by eexists.
  - destruct (int c) as [v|e] eqn:Hc; simpl.
    + destruct IH as [[digits ->] | (-> & c' & Hin & Hc')]; simpl.
      * left. by eexists.
      * right. split; [done|]. exists c'. split; [by right|done].
    + right. assert (e = ValueError) as ->.
      { unfold int in Hc. by destruct (Unicode.numeric_type_of c); simplify_eq. }
      split; [done|]. exists c. split; [by left|done].
Qed.

Lemma commonly_used_cases (pin : str) :
  (2 ≤ length pin)%nat →
  (∃ b, commonly_used pin = Returns b)
  ∨ (commonly_used pin = Raises ValueError
     ∧ ∃ c, c ∈ pin ∧ int c = Raises ValueError).
Proof.
  intros Hlen. unfold commonly_used.
  destruct (mapM_int_cases pin) as [[digits Hd] | (Hd & Hc)].
  - left. destruct (is_sequence_spec pin digits Hd) as (r & -> & _). simpl.
    destruct r; [by eexists|].
    destruct (is_repetition pin); [by eexists|].
    destruct (is_palindrome pin); [by eexists|].
    apply is_keypad_pattern_returns.
  - right. split; [|done]. unfold is_sequence.
    rewrite (bool_decide_eq_false_2 (length pin < 2)%nat) by lia.
    by rewrite Hd.
Qed.

(** ** The date projector *)

(** A century bucket that accepts the year yields the year modulo 100. *)
Lemma year_in_century_mod (y k : Z) :
  0 ≤ y - k * 100 < 100 → y - k * 100 = y `mod` 100.
Proof.
  intros H.
  apply (Z.mod_unique_pos y 100 k (y - k * 100)); lia.
Qed.

Lemma add_century_pins_bucket (d : date) (dd mm : str) (pins : gset str)
    (k : Z) :
  let yy := format_02d (year d `mod` 100) in
  add_century_pins d dd mm pins (k * 100) = pins
  ∨ add_century_pins d dd mm pins (k * 100)
    = pins ∪ {[ dd ++ mm ++ yy ]} ∪ {[ mm ++ dd ++ yy ]} ∪ {[ yy ++ mm ++ dd ]}.
Proof.
  unfold add_century_pins. simpl.
  repeat case_bool_decide; simpl; auto.
  right. by rewrite year_in_century_mod by lia.
Qed.

Lemma keeps_two_two (a b : str) :
  two_digits a = true → two_digits b = true → keeps (a ++ b) = true.
Proof.
  intros [La Da]%two_digits_inv [Lb Db]%two_digits_inv.
  unfold keeps. apply andb_true_iff. split.
  - apply bool_decide_eq_true. rewrite length_app, La, Lb. set_solver.
  - apply isdigit_ascii.
    + destruct a; [done|done].
    + rewrite forallb_app. by rewrite Da, Db.
Qed.

Lemma keeps_two_two_two (a b c : str) :
  two_digits a = true → two_digits b = true → two_digits c = true →
  keeps (a ++ b ++ c) = true.
Proof.
  intros [La Da]%two_digits_inv [Lb Db]%two_digits_inv [Lc Dc]%two_digits_inv.
  unfold keeps. apply andb_true_iff. split.
  - apply bool_decide_eq_true. rewrite !length_app, La, Lb, Lc. set_solver.
  - apply isdigit_ascii.
    + destruct a; [done|done].
    + rewrite !forallb_app. by rewrite Da, Db, Dc.
Qed.

Create HintDb pins.
#[local] Hint Resolve format_02d_two_digits keeps_two_two keeps_two_two_two
  : pins.

Section ValidDate.
Context (d : date) (Hvalid : _is_valid_date d = true).

Lemma valid_date_ranges : 1 ≤ month d ≤ 12 ∧ 1 ≤ day d ≤ 31.
Proof.
  revert Hvalid. unfold _is_valid_date.
  repeat case_bool_decide; simpl; try discriminate; intros _;
    set_unfold; lia.
Qed.

Lemma filter_keeps_date_pins :
  filter (λ p, keeps p) (date_pins d) = date_pins d.
Proof.
  destruct valid_date_ranges as [Hm Hd].
  assert (0 ≤ year d `mod` 100 < 100) by (apply Z.mod_pos_bound; lia).
  unfold date_pins. simpl.
  rewrite !filter_union_L.
  rewrite !filter_singleton_True_L;
    try apply Is_true_true; auto with pins lia.
  all: apply _.
Qed.

(** [generate_date_pins] on a valid date, whatever the current year is. *)
Lemma generate_date_pins_valid (current_year : Z) :
  generate_date_pins current_year d = date_pins d.
Proof.
  unfold generate_date_pins. rewrite Hvalid. simpl.
  set (dd := format_02d (day d)). set (mm := format_02d (month d)).
  set (yy := format_02d (year d `mod` 100)).
  set (k := current_year `div` 100).
  replace (k * 100 - 100) with ((k - 1) * 100) by lia.
  rewrite <- filter_keeps_date_pins. f_equal.
  unfold date_pins. fold dd mm yy.
  set (pins0 := (∅ ∪ {[dd ++ mm]} ∪ {[mm ++ dd]} : gset str)).
  destruct (add_century_pins_bucket d dd mm pins0 (k - 1)) as [-> | ->];
    fold yy.
  - destruct (add_century_pins_bucket d dd mm pins0 k) as [-> | ->];
      fold yy; set_solver.
  - match goal with |- context [add_century_pins d dd mm ?X (k * 100)] =>
      destruct (add_century_pins_bucket d dd mm X k) as [-> | ->] end;
      fold yy; set_solver.
Qed.

End ValidDate.

Lemma generate_date_pins_invalid (current_year : Z) (d : date) :
  _is_valid_date d = false → generate_date_pins current_year d = ∅.
Proof. intros Hv. unfold generate_date_pins. by rewrite Hv. Qed.

Lemma size_add (X : gset str) (x : str) (n : nat) :
  (size X ≤ n)%nat → (size (X ∪ {[ x ]}) ≤ S n)%nat.
Proof.
  intros H. rewrite size_union_alt.
  assert (size ({[ x ]} ∖ X : gset str) ≤ 1)%nat; [|lia].
  rewrite <- (size_singleton (C := gset str) x).
  apply subseteq_size. set_solver.
Qed.

Lemma size_date_pins (d : date) : (size (date_pins d) ≤ 5)%nat.
Proof.
  unfold date_pins. cbv zeta.
  do 4 apply size_add. by rewrite size_singleton.
Qed.

(** The current year never changes what a date matches. *)
Lemma matches_date_current_year (y1 y2 : Z) (pin : str) (dob : option date) :
  matches_date y1 pin dob = matches_date y2 pin dob.
Proof.
  destruct dob as [d|]; [|done]. simpl.
  destruct (_is_valid_date d) eqn:Hv; [|done].
  by rewrite !generate_date_pins_valid.
Qed.

Lemma matches_date_invalid (y : Z) (pin : str) (d : date) :
  _is_valid_date d = false → matches_date y pin (Some d) = false.
Proof. intros Hv. simpl. by rewrite Hv. Qed.

(** ** The classifier *)

Lemma check_pin_strength_current_year (y1 y2 : Z) (pin : str)
    (dob_self dob_spouse anniversary : option date) :
  check_pin_strength y1 pin dob_self dob_spouse anniversary
  = check_pin_strength y2 pin dob_self dob_spouse anniversary.
Proof.
  unfold check_pin_strength.
  by rewrite !(matches_date_current_year y1 y2).
Qed.

(** Evaluate a call whose arguments are literals, at any current year. *)
Ltac run_at_any_year y :=
  rewrite (check_pin_strength_current_year y 2000); vm_compute; reflexivity.

(** Every return of the classifier is one of two shapes. *)
Lemma check_pin_strength_returns (y : Z) (pin : str)
    (a b c : option date) (v : verdict) :
  check_pin_strength y pin a b c = Returns v →
  (gate_fails pin = true ∧ v = {| strength := "STRONG"; reasons := [] |})
  ∨ (gate_fails pin = false ∧
     ∃ common, commonly_used pin = Returns common ∧
       let rs := reasons_of common (matches_date y pin a)
                   (matches_date y pin b) (matches_date y pin c) in
       v = {| strength := if bool_decide (rs ≠ []) then "WEAK" else "STRONG";
              reasons := rs |}).
Proof.
  unfold check_pin_strength. fold (gate_fails pin).
  destruct (gate_fails pin); [intros [= <-]; by left|].
  destruct (commonly_used pin) as [common|e]; [|discriminate].
  intros [= <-]. right. split; [done|]. exists common. split; [done|].
  unfold reasons_of.
  by destruct common, (matches_date y pin a), (matches_date y pin b),
    (matches_date y pin c).
Qed.

Ltac solve_reason_in :=
  let H := fresh in
  vm_compute; try reflexivity; intros H;
  repeat (apply elem_of_cons in H as [H|H]; [discriminate H|]);
  by apply elem_of_nil in H.

Lemma reason_self_in (common self spouse anniv : bool) :
  REASON_DOB_SELF ∈ reasons_of common self spouse anniv → self = true.
Proof. destruct common, self, spouse, anniv; solve_reason_in. Qed.

Lemma reason_spouse_in (common self spouse anniv : bool) :
  REASON_DOB_SPOUSE ∈ reasons_of common self spouse anniv → spouse = true.
Proof. destruct common, self, spouse, anniv; solve_reason_in. Qed.

Lemma reason_anniversary_in (common self spouse anniv : bool) :
  REASON_ANNIVERSARY ∈ reasons_of common self spouse anniv → anniv = true.
Proof. destruct common, self, spouse, anniv; solve_reason_in. Qed.

Lemma well_formed_reasons_of (common self spouse anniv : bool) :
  let rs := reasons_of common self spouse anniv in
  well_formed {| strength := if bool_decide (rs ≠ []) then "WEAK"
                             else "STRONG";
                 reasons := rs |}.
Proof.
  destruct common, self, spouse, anniv; vm_compute;
    (split; [|repeat constructor]); repeat constructor.
Qed.

(** The classifier either returns a well-formed verdict, or raises
    [ValueError] on a PIN that [str.isdigit] accepts and that holds a digit
    character that is no decimal digit. *)
Lemma check_pin_strength_cases (current_year : Z) (pin : str)
    (dob_self dob_spouse anniversary : option date) :
  (∃ v, check_pin_strength current_year pin dob_self dob_spouse anniversary
        = Returns v ∧ well_formed v)
  ∨ (check_pin_strength current_year pin dob_self dob_spouse anniversary
     = Raises ValueError
     ∧ isdigit pin = true
     ∧ ∃ c, c ∈ pin ∧ Unicode.numeric_type_of c = Unicode.Digit).
Proof.
  unfold check_pin_strength. fold (gate_fails pin).
  destruct (gate_fails pin) eqn:Hg.
  - left. eexists. split; [done|]. split; cbn; repeat constructor.
  - unfold gate_fails in Hg.
    apply orb_false_iff in Hg as [[_ Hd]%orb_false_iff Hl].
    apply negb_false_iff in Hd, Hl. apply bool_decide_eq_true in Hl.
    destruct (commonly_used_cases pin) as [[common ->] | (-> & c & Hin & Hc)].
    { set_unfold. lia. }
    + left. eexists. split; [done|]. simpl.
      pose proof (well_formed_reasons_of common
        (matches_date current_year pin dob_self)
        (matches_date current_year pin dob_spouse)
        (matches_date current_year pin anniversary)) as Hwf.
      unfold reasons_of in Hwf. cbv zeta in Hwf.
      by destruct common, (matches_date current_year pin dob_self),
        (matches_date current_year pin dob_spouse),
        (matches_date current_year pin anniversary).
    + right. split; [done|]. split; [done|]. exists c. split; [done|].
      assert (Unicode.isdigit c = true) as Hcd.
      { unfold isdigit in Hd. destruct pin as [|c0 pin]; [done|].
        rewrite forallb_forall in Hd. by apply Hd, list_elem_of_In. }
      unfold int in Hc. unfold Unicode.isdigit in Hcd.
      by destruct (Unicode.numeric_type_of c).
Qed.

(** * The claims *)

(** Claim C1, as the code has it.  The claim (and the module's own test
    "Multiple reasons - Sequence and DOB") expects PIN 1234 with dob_self
    2012-03-04 to carry both COMMONLY_USED and DEMOGRAPHIC_DOB_SELF.  The
    date projects to 0403, 0304, 040312, 030412 and 120304 only (day and
    month are always zero-padded), so the classifier returns WEAK with the
    single reason COMMONLY_USED, whatever the current year is. *)
Theorem C1_sequence_and_dob_gives_one_reason (current_year : Z) :
  check_pin_strength current_year (py "1234") (Some (Date 2012 3 4)) None None
  = Returns {| strength := "WEAK"; reasons := [REASON_COMMONLY_USED] |}
  ∧ (py "1234" ∉ generate_date_pins current_year (Date 2012 3 4))
  ∧ (generate_date_pins current_year (Date 2012 3 4)
     = {[ py "0403"; py "0304"; py "040312"; py "030412"; py "120304" ]}).
Proof.
  split; [run_at_any_year current_year|].
  rewrite generate_date_pins_valid by reflexivity.
  split; [by vm_compute|by vm_compute].
Qed.

(** A PIN the gate turns away is STRONG with no reasons, whatever the dates
    are.  Digits are what [str.isdigit] takes for digits. *)
Theorem format_gate (current_year : Z) (pin : str)
    (dob_self dob_spouse anniversary : option date) :
  pin = [] ∨ (∃ c, c ∈ pin ∧ Unicode.isdigit c = false)
  ∨ (length pin ≠ 4%nat ∧ length pin ≠ 6%nat) →
  check_pin_strength current_year pin dob_self dob_spouse anniversary
  = Returns {| strength := "STRONG"; reasons := [] |}.
Proof.
  intros H. unfold check_pin_strength.
  assert (Hg : gate_fails pin = true); [|unfold gate_fails in Hg; by rewrite Hg].
  unfold gate_fails.
  destruct H as [-> | [(c & Hin & Hc) | [H4 H6]]].
  - reflexivity.
  - assert (isdigit pin = false) as ->; [|by rewrite orb_true_r].
    unfold isdigit. destruct pin as [|c0 pin]; [done|].
    apply not_true_is_false. intros Hall.
    rewrite forallb_forall in Hall.
    apply list_elem_of_In, Hall in Hin. congruence.
  - rewrite (bool_decide_eq_false_2 (length pin ∈ _)) by set_solver.
    by rewrite orb_true_r.
Qed.

Lemma format_gate_witness :
  check_pin_strength 2026 (py "123a") (Some (Date 1990 3 5)) None None
  = Returns {| strength := "STRONG"; reasons := [] |}.
Proof.
  apply format_gate. right. left. exists (chr "a").
  split; [cbv; repeat constructor | reflexivity].
Defined.

(** Claim C2, as the code has it.  The PIN 123² (the last character is
    U+00B2 SUPERSCRIPT TWO) has length 4 and a character that is no decimal
    digit, so the claim expects STRONG with no reasons.  [str.isdigit]
    accepts the superscript, the gate lets the PIN through, and [int] then
    raises [ValueError] in [is_sequence]: no verdict is returned. *)
Theorem C2_gate_lets_superscript_through (current_year : Z)
    (dob_self dob_spouse anniversary : option date) :
  let pin := py "123" ++ [0xB2%N] in
  forallb ascii_digit pin = false
  ∧ (∀ c, c ∈ pin → Unicode.numeric_type_of c ≠ Unicode.NotDigit)
  ∧ int 0xB2%N = Raises ValueError
  ∧ isdigit pin = true
  ∧ check_pin_strength current_year pin dob_self dob_spouse anniversary
    = Raises ValueError.
Proof.
  cbv zeta. split_and!; [by vm_compute| |by vm_compute..].
  intros c Hc.
  repeat (apply elem_of_cons in Hc as [->|Hc]; [by vm_compute|]).
  by apply elem_of_nil in Hc.
Qed.

(** Claim C3: whenever the classifier returns a verdict, its reasons list is
    non-empty exactly when the strength is WEAK, and empty exactly when the
    strength is STRONG. *)
Theorem C3_reasons_strength_coupling (current_year : Z) (pin : str)
    (dob_self dob_spouse anniversary : option date) (v : verdict) :
  check_pin_strength current_year pin dob_self dob_spouse anniversary
  = Returns v →
  (reasons v ≠ [] ↔ strength v = "WEAK")
  ∧ (reasons v = [] ↔ strength v = "STRONG").
Proof.
  intros [[_ ->] | [_ (common & _ & ->)]]%check_pin_strength_returns.
  - simpl. split; split; done.
  - simpl. case_bool_decide as Hrs.
    + split; split; done.
    + rewrite Hrs. split; split; done.
Qed.

Lemma C3_reasons_strength_coupling_witness :
  check_pin_strength 2026 (py "1234") None None None
  = Returns (Verdict "WEAK" [REASON_COMMONLY_USED])
  ∧ ((reasons (Verdict "WEAK" [REASON_COMMONLY_USED]) ≠ []
      ↔ strength (Verdict "WEAK" [REASON_COMMONLY_USED]) = "WEAK")
     ∧ (reasons (Verdict "WEAK" [REASON_COMMONLY_USED]) = []
        ↔ strength (Verdict "WEAK" [REASON_COMMONLY_USED]) = "STRONG")).
Proof.
  split; [by vm_compute|].
  apply (C3_reasons_strength_coupling 2026 (py "1234") None None None).
  by vm_compute.
Defined.

(** Claim C4: with no dates, 1234, 8901, 9876 and 2468 are WEAK with reasons
    exactly [COMMONLY_USED] and 1235 is STRONG with no reasons; and the
    sequence detector, on a PIN whose characters [int] accepts, answers
    [True] exactly when every digit after the second is the previous one
    plus the step modulo 10, the step being the difference of the first two
    digits. *)
Theorem C4_sequence_pins (current_year : Z) :
  let weak := Returns {| strength := "WEAK";
                         reasons := [REASON_COMMONLY_USED] |} in
  check_pin_strength current_year (py "1234") None None None = weak
  ∧ check_pin_strength current_year (py "8901") None None None = weak
  ∧ check_pin_strength current_year (py "9876") None None None = weak
  ∧ check_pin_strength current_year (py "2468") None None None = weak
  ∧ check_pin_strength current_year (py "1235") None None None
    = Returns {| strength := "STRONG"; reasons := [] |}
  ∧ is_sequence (py "1234") = Returns true
  ∧ is_sequence (py "8901") = Returns true
  ∧ is_sequence (py "9876") = Returns true
  ∧ is_sequence (py "2468") = Returns true
  ∧ is_sequence (py "1235") = Returns false
  ∧ (∀ pin digits, mapM int pin = Returns digits →
       is_sequence pin = Returns true ↔ progression_mod10 digits).
Proof.
  cbv zeta. split_and!; [by vm_compute..|].
  intros pin digits Hd.
  destruct (is_sequence_spec pin digits Hd) as (r & -> & Hr).
  rewrite <- Hr. split; [by intros [= ->]|by intros ->].
Qed.

Lemma C4_sequence_pins_witness :
  mapM int (py "2468") = Returns [2; 4; 6; 8]
  ∧ (is_sequence (py "2468") = Returns true
     ↔ progression_mod10 [2; 4; 6; 8]).
Proof.
  split; [reflexivity|].
  apply (C4_sequence_pins 2026). reflexivity.
Defined.

(** Claim C5, as the code has it.  2580, 1478 and 1397 are WEAK with the
    single reason COMMONLY_USED, as claimed.  1739 is WEAK as well, where
    the claim (and the module's tests "corners in a random order" and
    "corners not in sequence") expects STRONG: the keypad detector rejects
    it, but [is_sequence] accepts 1, 7, 3, 9 as the progression of step 6
    modulo 10. *)
Theorem C5_keypad_pins_and_1739 (current_year : Z) :
  let weak := Returns {| strength := "WEAK";
                         reasons := [REASON_COMMONLY_USED] |} in
  check_pin_strength current_year (py "2580") None None None = weak
  ∧ check_pin_strength current_year (py "1478") None None None = weak
  ∧ check_pin_strength current_year (py "1397") None None None = weak
  ∧ check_pin_strength current_year (py "1739") None None None = weak
  ∧ is_keypad_pattern (py "1739") = Returns false
  ∧ is_sequence (py "1739") = Returns true.
Proof. by vm_compute. Qed.

(** Claim C6: with dob_self 1990-03-05 both 0503 and 0305 are WEAK with
    reasons exactly [DEMOGRAPHIC_DOB_SELF]; so are 020198 with dob_self
    1998-01-02 and 020104 with dob_self 2004-01-02, whatever the current
    year is. *)
Theorem C6_date_projection_examples (current_year : Z) :
  let weak := Returns {| strength := "WEAK";
                         reasons := [REASON_DOB_SELF] |} in
  check_pin_strength current_year (py "0503") (Some (Date 1990 3 5)) None None
  = weak
  ∧ check_pin_strength current_year (py "0305") (Some (Date 1990 3 5))
      None None = weak
  ∧ check_pin_strength current_year (py "020198") (Some (Date 1998 1 2))
      None None = weak
  ∧ check_pin_strength current_year (py "020104") (Some (Date 2004 1 2))
      None None = weak.
Proof. cbv zeta. repeat split; run_at_any_year current_year. Qed.

(** Claim C7: a date that is no calendar date (29 February 1999 is one),
    supplied in any of the three roles, leaves the result of the classifier
    exactly what it is with that role absent, for every PIN and whatever the
    other two roles hold; a returned verdict then never carries the reason
    of that role, and the date raises nothing of its own.  PIN 2902 with
    29 February 1999 as dob_self is STRONG with no reasons. *)
Theorem C7_invalid_date_is_inert (current_year : Z) (pin : str) (d : date)
    (dob_self dob_spouse anniversary : option date) :
  _is_valid_date d = false →
  (check_pin_strength current_year pin (Some d) dob_spouse anniversary
   = check_pin_strength current_year pin None dob_spouse anniversary)
  ∧ (check_pin_strength current_year pin dob_self (Some d) anniversary
     = check_pin_strength current_year pin dob_self None anniversary)
  ∧ (check_pin_strength current_year pin dob_self dob_spouse (Some d)
     = check_pin_strength current_year pin dob_self dob_spouse None)
  ∧ (∀ v, check_pin_strength current_year pin (Some d) dob_spouse anniversary
          = Returns v → REASON_DOB_SELF ∉ reasons v)
  ∧ (∀ v, check_pin_strength current_year pin dob_self (Some d) anniversary
          = Returns v → REASON_DOB_SPOUSE ∉ reasons v)
  ∧ (∀ v, check_pin_strength current_year pin dob_self dob_spouse (Some d)
          = Returns v → REASON_ANNIVERSARY ∉ reasons v)
  ∧ _is_valid_date (Date 1999 2 29) = false
  ∧ check_pin_strength current_year (py "2902") (Some (Date 1999 2 29))
      None None
    = Returns {| strength := "STRONG"; reasons := [] |}.
Proof.
  intros Hd.
  pose proof (matches_date_invalid current_year pin d Hd) as Hm.
  split_and!.
  - unfold check_pin_strength. by rewrite Hm.
  - unfold check_pin_strength. by rewrite Hm.
  - unfold check_pin_strength. by rewrite Hm.
  - intros v [[_ ->] | [_ (common & _ & ->)]]%check_pin_strength_returns;
      cbn [reasons]; [apply not_elem_of_nil|].
    intros Hin%reason_self_in. congruence.
  - intros v [[_ ->] | [_ (common & _ & ->)]]%check_pin_strength_returns;
      cbn [reasons]; [apply not_elem_of_nil|].
    intros Hin%reason_spouse_in. congruence.
  - intros v [[_ ->] | [_ (common & _ & ->)]]%check_pin_strength_returns;
      cbn [reasons]; [apply not_elem_of_nil|].
    intros Hin%reason_anniversary_in. congruence.
  - reflexivity.
  - run_at_any_year current_year.
Qed.

Lemma C7_invalid_date_is_inert_witness :
  _is_valid_date (Date 1999 2 29) = false
  ∧ check_pin_strength 2026 (py "2902") (Some (Date 1999 2 29)) None None
    = check_pin_strength 2026 (py "2902") None None None.
Proof.
  split; [reflexivity|].
  apply (C7_invalid_date_is_inert 2026 (py "2902") (Date 1999 2 29)
           None None None).
  reflexivity.
Defined.

(** Claim C8, as the code has it.  The PIN ²²²² (four times U+00B2) passes
    the format gate, because [str.isdigit] holds of it, and the classifier
    then raises [ValueError] from [int] instead of returning a verdict, for
    every combination of dates. *)
Theorem C8_raises_on_superscript_digits (current_year : Z)
    (dob_self dob_spouse anniversary : option date) :
  let pin : str := [0xB2; 0xB2; 0xB2; 0xB2]%N in
  check_pin_strength current_year pin dob_self dob_spouse anniversary
  = Raises ValueError
  ∧ ¬ ∃ v, check_pin_strength current_year pin dob_self dob_spouse
             anniversary = Returns v.
Proof.
  cbv zeta.
  assert (H : check_pin_strength current_year [0xB2; 0xB2; 0xB2; 0xB2]%N
                dob_self dob_spouse anniversary = Raises ValueError)
    by (by vm_compute).
  split; [done|]. intros [v Hv]. congruence.
Qed.

(** Totality where [int] and [str.isdigit] agree: on every PIN with no
    digit character other than decimal digits (every ASCII string is one),
    and for all dates, the classifier returns a well-formed verdict. *)
Theorem check_pin_strength_total (current_year : Z) (pin : str)
    (dob_self dob_spouse anniversary : option date) :
  (∀ c, c ∈ pin → Unicode.numeric_type_of c ≠ Unicode.Digit) →
  ∃ v, check_pin_strength current_year pin dob_self dob_spouse anniversary
       = Returns v ∧ well_formed v.
Proof.
  intros Hpin.
  destruct (check_pin_strength_cases current_year pin dob_self dob_spouse
              anniversary) as [H | (_ & _ & c & Hin & Hc)]; [done|].
  by apply Hpin in Hin.
Qed.

Lemma check_pin_strength_total_witness :
  ∃ v, check_pin_strength 2026 (py "0503") (Some (Date 1990 3 5)) None None
       = Returns v ∧ well_formed v.
Proof.
  apply (check_pin_strength_total 2026 (py "0503")).
  intros c Hc.
  repeat (apply elem_of_cons in Hc as [->|Hc]; [by vm_compute|]).
  by apply elem_of_nil in Hc.
Defined.


(** Claim C9: the verdict is a function of the PIN and the three dates
    alone.  The one thing the module reads besides its arguments is the
    current year ([date.today().year] in [generate_date_pins]), and two
    calls with the same arguments give the same result at any two current
    years. *)
Theorem C9_same_inputs_same_output (year1 year2 : Z) (pin : str)
    (dob_self dob_spouse anniversary : option date) :
  check_pin_strength year1 pin dob_self dob_spouse anniversary
  = check_pin_strength year2 pin dob_self dob_spouse anniversary
  ∧ (∀ d, generate_date_pins year1 d = generate_date_pins year2 d).
Proof.
  split; [apply check_pin_strength_current_year|].
  intros d. destruct (_is_valid_date d) eqn:Hv.
  - by rewrite !generate_date_pins_valid.
  - by rewrite !generate_date_pins_invalid.
Qed.

(** Claim C10: for every valid calendar date, [generate_date_pins] returns
    exactly the set of dd+mm, mm+dd, dd+mm+yy, mm+dd+yy and yy+mm+dd, where
    dd and mm are the zero-padded day and month and yy is the zero-padded
    year modulo 100.  A century bucket (the current century or the one
    before) whose year-in-century lies in [0,100) yields that same yy, so
    the loop adds nothing new, and the set has at most five elements. *)
Theorem C10_generate_date_pins_exact (current_year : Z) (d : date) :
  _is_valid_date d = true →
  let dd := format_02d (day d) in
  let mm := format_02d (month d) in
  let yy := format_02d (year d `mod` 100) in
  let current_century := current_year `div` 100 * 100 in
  generate_date_pins current_year d
  = {[ dd ++ mm; mm ++ dd; dd ++ mm ++ yy; mm ++ dd ++ yy; yy ++ mm ++ dd ]}
  ∧ (∀ century, century ∈ [current_century - 100; current_century] →
       0 ≤ year d - century < 100 →
       format_02d (year d - century) = yy)
  ∧ (size (generate_date_pins current_year d) ≤ 5)%nat.
Proof.
  intros Hv. cbv zeta. split_and!.
  - by rewrite generate_date_pins_valid.
  - intros century Hc Hy.
    assert (∃ k, century = k * 100) as [k ->].
    { apply elem_of_cons in Hc as [->|Hc].
      - exists (current_year `div` 100 - 1). lia.
      - apply list_elem_of_singleton in Hc as ->. by eexists. }
    by rewrite year_in_century_mod.
  - rewrite generate_date_pins_valid by done. apply size_date_pins.
Qed.

Lemma C10_generate_date_pins_exact_witness :
  _is_valid_date (Date 1990 3 5) = true
  ∧ generate_date_pins 2026 (Date 1990 3 5)
    = {[ py "0503"; py "0305"; py "050390"; py "030590"; py "900305" ]}.
Proof.
  split; [reflexivity|].
  apply (C10_generate_date_pins_exact 2026 (Date 1990 3 5)).
  reflexivity.
Defined.

(** * Further properties of the code *)

(** ** The repetition detector *)

Lemma str_repeat_length (pattern : str) (k : nat) :
  length (str_repeat pattern k) = (k * length pattern)%nat.
Proof.
  unfold str_repeat. induction k as [|k IH]; simpl; [done|].
  rewrite length_app. lia.
Qed.

Lemma str_repeat_singleton (c : N) (k : nat) :
  str_repeat [c] k = replicate k c.
Proof.
  unfold str_repeat. induction k as [|k IH]; simpl; [done|]. by rewrite IH.
Qed.

Lemma str_repeat_take (pattern : str) (k : nat) :
  (1 ≤ k)%nat → take (length pattern) (str_repeat pattern k) = pattern.
Proof.
  unfold str_repeat. destruct k as [|k]; [lia|]. intros _. simpl.
  by rewrite take_app_length.
Qed.

(** One character only: the string is that character, over and over. *)
Lemma one_character (pin : str) :
  size (list_to_set pin : gset N) = 1%nat →
  ∃ c, pin = replicate (length pin) c.
Proof.
  intros [c Hc]%size_1_elem_of. exists c. symmetry.
  apply replicate_as_Forall. split; [done|].
  apply Forall_forall. intros x Hx.
  assert (x ∈ (list_to_set pin : gset N)) as Hin by by apply elem_of_list_to_set.
  rewrite Hc in Hin. by apply elem_of_singleton in Hin.
Qed.

Lemma is_repetition_loop_true (pin : str) (range : list nat) :
  is_repetition_loop pin range = true ↔ Exists (tiles pin) range.
Proof.
  unfold tiles. induction range as [|pl range IH]; simpl.
  - split; [done|]. by intros ?%Exists_nil.
  - rewrite Exists_cons, <- IH.
    repeat case_bool_decide; naive_solver.
Qed.

(** [is_repetition] answers [True] exactly on the strings that are a
    non-empty block written at least twice in a row; the all-same test is
    the block of length one. *)
Theorem is_repetition_iff (pin : str) :
  is_repetition pin = true
  ↔ ∃ pattern k, pattern ≠ [] ∧ (2 ≤ k)%nat ∧ pin = str_repeat pattern k.
Proof.
  unfold is_repetition. cbv zeta.
  destruct (decide (length pin < 2)%nat) as [Hshort|Hlong].
  { rewrite (bool_decide_eq_true_2 _ Hshort). split; [done|].
    intros (pattern & k & Hne & Hk & ->).
    rewrite str_repeat_length in Hshort.
    destruct pattern; [done|]. simpl in Hshort. nia. }
  rewrite (bool_decide_eq_false_2 _ Hlong).
  split.
  - case_bool_decide as Hone.
    + intros _. destruct (one_character pin Hone) as [c Hc].
      exists [c], (length pin). split; [done|]. split; [lia|].
      by rewrite str_repeat_singleton.
    + intros (pl & Hin & Hmod & Hrep)%is_repetition_loop_true%Exists_exists.
      apply elem_of_seq in Hin.
      assert (Hhalf : (pl ≤ length pin `div` 2)%nat) by lia.
      assert (Hle : (2 * pl ≤ length pin)%nat).
      { etrans; [apply Nat.mul_le_mono_l, Hhalf|].
        apply Nat.Div0.mul_div_le. }
      exists (take pl pin), (length pin `div` pl)%nat. split_and!.
      * intros Hnil%(f_equal length). rewrite length_take in Hnil. simpl in Hnil. lia.
      * apply Nat.div_le_lower_bound; lia.
      * done.
  - intros (pattern & k & Hne & Hk & Hpin).
    case_bool_decide as Hone; [done|].
    apply is_repetition_loop_true, Exists_exists.
    assert (Hp : (1 ≤ length pattern)%nat) by (destruct pattern; [done|simpl; lia]).
    assert (Hlen : length pin = (k * length pattern)%nat)
      by (by rewrite Hpin, str_repeat_length).
    exists (length pattern). split.
    + apply elem_of_seq. split; [lia|].
      assert (length pattern ≤ length pin `div` 2)%nat; [|lia].
      apply Nat.div_le_lower_bound; [lia|]. rewrite Hlen. nia.
    + unfold tiles. rewrite Hlen, Nat.Div0.mod_mul, Nat.div_mul by lia.
      split; [done|]. subst pin. by rewrite str_repeat_take by lia.
Qed.

Lemma is_repetition_iff_witness :
  is_repetition (py "123123") = true.
Proof.
  apply is_repetition_iff. exists (py "123"), 2%nat.
  split_and!; [done|lia|reflexivity].
Defined.

(** ** The palindrome detector *)

(** [is_palindrome] answers [True] exactly when position [i] and position
    [len - 1 - i] hold the same character; the empty string and every
    one-character string are palindromes. *)
Theorem is_palindrome_iff (pin : str) :
  (is_palindrome pin = true
   ↔ ∀ i, (i < length pin)%nat → pin !! i = pin !! (length pin - 1 - i)%nat)
  ∧ ((length pin ≤ 1)%nat → is_palindrome pin = true).
Proof.
  assert (Hiff : is_palindrome pin = true
    ↔ ∀ i, (i < length pin)%nat → pin !! i = pin !! (length pin - 1 - i)%nat).
  { unfold is_palindrome. rewrite bool_decide_eq_true. split.
    - intros Heq i Hi. transitivity (reverse pin !! i); [by rewrite <- Heq|].
      rewrite reverse_lookup by done. f_equal. lia.
    - intros Hsym. apply list_eq. intros i.
      destruct (decide (i < length pin)%nat) as [Hi|Hi].
      + rewrite reverse_lookup by done. rewrite Hsym by done. f_equal. lia.
      + rewrite !lookup_ge_None_2; [done|rewrite length_reverse; lia|lia]. }
  split; [done|].
  intros Hshort. apply Hiff. intros i Hi. f_equal. lia.
Qed.

Lemma is_palindrome_iff_witness :
  (1 ≤ 1)%nat ∧ is_palindrome (py "7") = true.
Proof.
  split; [lia|]. apply (is_palindrome_iff (py "7")). simpl. lia.
Defined.

(** ** Errors of the sequence detector *)

Lemma mapM_int_all (pin : str) :
  (∀ c, c ∈ pin → ∃ v, int c = Returns v) → ∃ digits, mapM int pin = Returns digits.
Proof.
  intros Hall. destruct (mapM_int_cases pin) as [H | (_ & c & Hin & Hc)]; [done|].
  destruct (Hall c Hin) as [v Hv]. congruence.
Qed.

(** [is_sequence] on its edges: a string shorter than two is no sequence and
    is never converted; when [int] accepts every character the detector
    returns, and any two such characters are a sequence; it raises only
    [ValueError], exactly when the string has two characters or more and
    [int] rejects one of them. *)
Theorem is_sequence_errors (pin : str) :
  ((length pin < 2)%nat → is_sequence pin = Returns false)
  ∧ ((∀ c, c ∈ pin → ∃ v, int c = Returns v) →
     ∃ b, is_sequence pin = Returns b
          ∧ (length pin = 2%nat → b = true))
  ∧ (∀ e, is_sequence pin = Raises e ↔
       e = ValueError ∧ (2 ≤ length pin)%nat
       ∧ ∃ c, c ∈ pin ∧ int c = Raises ValueError).
Proof.
  split_and!.
  - intros Hshort. unfold is_sequence. by rewrite bool_decide_eq_true_2.
  - intros [digits Hd]%mapM_int_all.
    destruct (is_sequence_spec pin digits Hd) as (b & Hb & Hiff).
    exists b. split; [done|]. intros Hlen. apply Hiff.
    pose proof (mapM_Returns_length _ _ _ Hd) as Hdl.
    destruct (index_in_range digits 0) as (d0 & H0 & _); [lia|].
    destruct (index_in_range digits 1) as (d1 & H1 & _); [lia|].
    exists d0, d1. split_and!; [done..|].
    intros i Hi a c _ Hc%lookup_lt_Some. lia.
  - intros e. split.
    + intros Hr. destruct (decide (length pin < 2)%nat) as [Hshort|Hlong].
      { unfold is_sequence in Hr. by rewrite bool_decide_eq_true_2 in Hr. }
      destruct (mapM_int_cases pin) as [[digits Hd] | (Hd & Hc)].
      * destruct (is_sequence_spec pin digits Hd) as (b & Hb & _). congruence.
      * unfold is_sequence in Hr.
        rewrite (bool_decide_eq_false_2 _ Hlong), Hd in Hr.
        simpl in Hr. split_and!; [congruence|lia|done].
    + intros (-> & Hlen & c & Hin & Hc). unfold is_sequence.
      rewrite bool_decide_eq_false_2 by lia.
      destruct (mapM_int_cases pin) as [[digits Hd] | (-> & _)]; [|done].
      exfalso. clear Hlen. revert digits Hd.
      induction Hin as [c pin|c c' pin Hin IH]; intros digits; simpl.
      * by rewrite Hc.
      * destruct (int c'); simpl; [|done].
        destruct (mapM int pin) as [ds|] eqn:Hm; simpl; [|done].
        intros _. by eapply IH.
Qed.

Lemma is_sequence_errors_witness :
  (length (py "5") < 2)%nat ∧ is_sequence (py "5") = Returns false.
Proof.
  split; [simpl; lia|]. apply (is_sequence_errors (py "5")). simpl. lia.
Defined.

(** ** The keypad detector *)

Lemma KEYPAD_COORDS_digit (c : N) :
  is_Some (KEYPAD_COORDS !! c) ↔ ascii_digit c = true.
Proof.
  split.
  - intros [xy Hxy]. unfold KEYPAD_COORDS in Hxy.
    apply elem_of_list_to_map_2 in Hxy.
    repeat (apply elem_of_cons in Hxy as [[= -> _]|Hxy]; [reflexivity|]).
    by apply elem_of_nil in Hxy.
  - intros H%ascii_digit_cases.
    repeat (apply elem_of_cons in H as [->|H]; [by eexists|]).
    by apply elem_of_nil in H.
Qed.

Lemma mapM_getitem_KeyError (pin : str) (c : N) :
  c ∈ pin → KEYPAD_COORDS !! c = None →
  mapM (getitem KEYPAD_COORDS) pin = Raises KeyError.
Proof.
  intros Hin Hc. induction Hin as [c pin|c c' pin Hin IH]; simpl.
  - assert (getitem KEYPAD_COORDS c = Raises KeyError) as ->; [|done].
    unfold getitem. by rewrite Hc.
  - destruct (getitem KEYPAD_COORDS c') as [xy|e] eqn:Hg; simpl.
    + by rewrite IH.
    + unfold getitem in Hg. by destruct (KEYPAD_COORDS !! c'); simplify_eq.
Qed.

(** [is_keypad_pattern] returns for every string: the [KeyError] of a
    character off the keypad is caught and no index is out of range.  It
    answers [False] on a string shorter than three and on a string with a
    character other than [0]..[9]. *)
Theorem is_keypad_pattern_never_raises (pin : str) :
  ∃ b, is_keypad_pattern pin = Returns b
       ∧ (((length pin < 3)%nat ∨ ∃ c, c ∈ pin ∧ ascii_digit c = false) →
          b = false).
Proof.
  destruct (is_keypad_pattern_returns pin) as [b Hb]. exists b.
  split; [done|]. intros Hbad. unfold is_keypad_pattern in Hb.
  case_bool_decide as Hlen; [congruence|].
  destruct Hbad as [?|(c & Hin & Hc)]; [done|].
  rewrite (mapM_getitem_KeyError pin c Hin) in Hb; [congruence|].
  apply eq_None_not_Some. rewrite KEYPAD_COORDS_digit. congruence.
Qed.

Lemma is_keypad_pattern_never_raises_witness :
  ∃ b, is_keypad_pattern (py "12#4") = Returns b ∧ b = false.
Proof.
  destruct (is_keypad_pattern_never_raises (py "12#4")) as (b & Hb & Hfalse).
  exists b. split; [done|]. apply Hfalse. right. exists (chr "#").
  split; [cbv; repeat constructor|reflexivity].
Defined.

Lemma is_line_loop_true (coords : list (Z * Z)) (range : list nat) :
  Forall (λ i, (i + 2 < length coords)%nat) range →
  (∀ i p1 p2 p3, coords !! i = Some p1 → coords !! (i + 1)%nat = Some p2 →
     coords !! (i + 2)%nat = Some p3 → _is_collinear p1 p2 p3 = true) →
  is_line_loop coords range = Returns true.
Proof.
  intros Hrange Hcol. induction Hrange as [|i range Hi _ IH]; simpl; [done|].
  destruct (index_in_range coords i) as (p1 & H1 & ->); [lia|].
  destruct (index_in_range coords (i + 1)) as (p2 & H2 & ->); [lia|].
  destruct (index_in_range coords (i + 2)) as (p3 & H3 & ->); [lia|].
  simpl. by rewrite (Hcol i p1 p2 p3).
Qed.

Lemma mapM_getitem_Forall2 (pin : str) (coords : list (Z * Z)) :
  mapM (getitem KEYPAD_COORDS) pin = Returns coords →
  Forall2 (λ c xy, KEYPAD_COORDS !! c = Some xy) pin coords.
Proof.
  revert coords. induction pin as [|c pin IH]; intros coords; simpl.
  - intros [= <-]. constructor.
  - destruct (getitem KEYPAD_COORDS c) as [xy|e] eqn:Hg; simpl; [|done].
    destruct (mapM (getitem KEYPAD_COORDS) pin) as [k|e]; simpl; [|done].
    intros [= <-]. constructor; [|by apply IH].
    unfold getitem in Hg. by destruct (KEYPAD_COORDS !! c); simplify_eq.
Qed.

(** A PIN of three digits or more that uses at most two distinct keys is a
    straight line for [is_keypad_pattern]: a repeated key and a key gone
    back to both pass the cross-product test. *)
Theorem two_key_pins_are_lines (a b : N) (pin : str) :
  ascii_digit a = true → ascii_digit b = true →
  (3 ≤ length pin)%nat → (∀ c, c ∈ pin → c = a ∨ c = b) →
  is_keypad_pattern pin = Returns true.
Proof.
  intros [pa Ha]%KEYPAD_COORDS_digit [pb Hb]%KEYPAD_COORDS_digit Hlen Hpin.
  unfold is_keypad_pattern. rewrite bool_decide_eq_false_2 by lia.
  destruct (mapM_getitem_cases pin) as [(coords & Hc & Hcl) | Herr].
  - rewrite Hc. pose proof (mapM_getitem_Forall2 pin coords Hc) as HF.
    rewrite (bool_decide_eq_true_2 (3 ≤ length coords)%nat) by lia.
    rewrite is_line_loop_true; [done| |].
    + apply Forall_forall. intros i Hi%elem_of_seq. lia.
    + assert (Hab : ∀ i p, coords !! i = Some p → p = pa ∨ p = pb).
      { intros i p Hp.
        destruct (Forall2_lookup_r _ _ _ _ _ HF Hp) as (c & Hci & Hcp).
        destruct (Hpin c) as [-> | ->]; [by eapply list_elem_of_lookup_2|..];
          simplify_eq; auto. }
      intros i p1 p2 p3 H1 H2 H3.
      destruct (Hab _ _ H1) as [-> | ->], (Hab _ _ H2) as [-> | ->],
        (Hab _ _ H3) as [-> | ->];
        destruct pa, pb; apply bool_decide_eq_true; lia.
  - exfalso. assert (∃ c, c ∈ pin ∧ KEYPAD_COORDS !! c = None) as (c & Hin & Hn).
    { clear Hlen Hpin. induction pin as [|c pin IH]; simpl in Herr; [done|].
      destruct (getitem KEYPAD_COORDS c) as [xy|e] eqn:Hg; simpl in Herr.
      - destruct (mapM (getitem KEYPAD_COORDS) pin) as [k|e] eqn:Hm;
          simpl in Herr; [done|]. injection Herr as ->.
        destruct IH as (c' & Hin & Hn); [done|]. exists c'. split; [by right|done].
      - exists c. split; [by left|]. unfold getitem in Hg.
        by destruct (KEYPAD_COORDS !! c). }
    destruct (Hpin c Hin) as [-> | ->]; congruence.
Qed.

Lemma two_key_pins_are_lines_witness :
  is_keypad_pattern (py "112121") = Returns true.
Proof.
  apply (two_key_pins_are_lines (chr "1") (chr "2"));
    [reflexivity|reflexivity|simpl; lia|].
  intros c Hc.
  repeat (apply elem_of_cons in Hc as [->|Hc]; [auto|]).
  by apply elem_of_nil in Hc.
Defined.

(** ** Calendar dates *)

Lemma is_valid_date_february (y dy : Z) :
  _is_valid_date (Date y 2 dy) = true
  ↔ 1 ≤ dy ∧ (dy ≤ 28 ∨ (dy = 29 ∧ leap_year y)).
Proof.
  unfold _is_valid_date, leap_year. simpl.
  rewrite !bool_decide_eq_false_2 by set_solver by lia.
  simpl. rewrite andb_true_iff, !bool_decide_eq_true.
  repeat case_bool_decide; simpl; lia.
Qed.

(** [_is_valid_date]: an accepted date has its month in 1..12 and its day in
    1..31; a day up to 28 is accepted in every month of every year; the
    answer repeats every 400 years; 29 February is accepted exactly in leap
    years. *)
Theorem is_valid_date_calendar (d : date) :
  (_is_valid_date d = true → 1 ≤ month d ≤ 12 ∧ 1 ≤ day d ≤ 31)
  ∧ (1 ≤ month d ≤ 12 → 1 ≤ day d ≤ 28 → _is_valid_date d = true)
  ∧ _is_valid_date (Date (year d + 400) (month d) (day d)) = _is_valid_date d
  ∧ (_is_valid_date (Date (year d) 2 29) = true ↔ leap_year (year d)).
Proof.
  split_and!.
  - apply valid_date_ranges.
  - intros Hm Hd. unfold _is_valid_date.
    repeat case_bool_decide; simpl; try done; set_unfold; lia.
  - destruct d as [y m dy]. unfold _is_valid_date. simpl.
    assert ((y + 400) `mod` 4 = y `mod` 4) as ->
      by (by rewrite <- (Z.mod_add y 100 4) by lia).
    assert ((y + 400) `mod` 100 = y `mod` 100) as ->
      by (by rewrite <- (Z.mod_add y 4 100) by lia).
    assert ((y + 400) `mod` 400 = y `mod` 400) as ->
      by (by rewrite <- (Z.mod_add y 1 400) by lia).
    done.
  - rewrite is_valid_date_february. naive_solver lia.
Qed.

Lemma is_valid_date_calendar_witness :
  _is_valid_date (Date 2024 2 29) = true
  ∧ (1 ≤ month (Date 2024 2 29) ≤ 12 ∧ 1 ≤ day (Date 2024 2 29) ≤ 31).
Proof.
  split; [reflexivity|].
  apply (is_valid_date_calendar (Date 2024 2 29)). reflexivity.
Defined.

(** ** The date projector, further *)

(** [generate_date_pins] returns the empty set exactly on the dates that
    [_is_valid_date] rejects. *)
Theorem generate_date_pins_empty_iff (current_year : Z) (d : date) :
  generate_date_pins current_year d = ∅ ↔ _is_valid_date d = false.
Proof.
  split; [|apply generate_date_pins_invalid].
  destruct (_is_valid_date d) eqn:Hv; [|done].
  rewrite generate_date_pins_valid by done. unfold date_pins. cbv zeta.
  intros Hempty. exfalso.
  assert (format_02d (day d) ++ format_02d (month d) ∈ (∅ : gset str))
    as Hin; [|set_solver].
  rewrite <- Hempty. set_solver.
Qed.

Lemma format_02d_decode (n : Z) :
  0 ≤ n < 100 → mapM int (format_02d n) = Returns [n `div` 10; n `mod` 10].
Proof.
  intros Hn.
  assert (Hall : forallb (λ k,
      match mapM int (format_02d (Z.of_nat k)) with
      | Returns [a; b] =>
          bool_decide (a = Z.of_nat k `div` 10 ∧ b = Z.of_nat k `mod` 10)
      | _ => false
      end) (seq 0 100) = true) by (vm_compute; reflexivity).
  rewrite forallb_forall in Hall.
  assert (Hk := Hall (Z.to_nat n) ltac:(apply in_seq; lia)). cbv beta in Hk.
  rewrite Z2Nat.id in Hk by lia.
  destruct (mapM int (format_02d n)) as [[|a [|b [|c l]]]|e];
    try discriminate Hk.
  by apply bool_decide_eq_true in Hk as [-> ->].
Qed.

Lemma mapM_Returns_app {A B} (f : A → result B) (l1 l2 : list A)
    (k1 k2 : list B) :
  mapM f l1 = Returns k1 → mapM f l2 = Returns k2 →
  mapM f (l1 ++ l2) = Returns (k1 ++ k2).
Proof.
  revert k1. induction l1 as [|x l1 IH]; intros k1; simpl.
  - by intros [= <-].
  - destruct (f x) as [y|e]; simpl; [|done].
    destruct (mapM f l1) as [k|e]; simpl; [|done].
    intros [= <-] H2. by rewrite (IH k eq_refl H2).
Qed.

(** Decoding the day-month-year PIN of a valid date gives the date back, up
    to the century. *)
Theorem generate_date_pins_decode (current_year : Z) (d : date) :
  _is_valid_date d = true →
  ∃ p a b c e f g,
    p ∈ generate_date_pins current_year d
    ∧ mapM int p = Returns [a; b; c; e; f; g]
    ∧ 10 * a + b = day d ∧ 10 * c + e = month d
    ∧ 10 * f + g = year d `mod` 100.
Proof.
  intros Hv. destruct (valid_date_ranges d Hv) as [Hm Hd].
  assert (Hy : 0 ≤ year d `mod` 100 < 100) by (apply Z.mod_pos_bound; lia).
  exists (format_02d (day d) ++ format_02d (month d)
          ++ format_02d (year d `mod` 100)).
  do 6 eexists. split_and!.
  - rewrite generate_date_pins_valid by done. unfold date_pins. set_solver.
  - apply (mapM_Returns_app _ _ _ [_; _] [_; _; _; _]);
      [apply format_02d_decode; lia|].
    apply (mapM_Returns_app _ _ _ [_; _] [_; _]);
      apply format_02d_decode; lia.
  - symmetry. apply Z.div_mod. lia.
  - symmetry. apply Z.div_mod. lia.
  - symmetry. apply Z.div_mod. lia.
Qed.

Lemma generate_date_pins_decode_witness :
  ∃ p a b c e f g,
    p ∈ generate_date_pins 2026 (Date 1990 3 5)
    ∧ mapM int p = Returns [a; b; c; e; f; g]
    ∧ 10 * a + b = 5 ∧ 10 * c + e = 3 ∧ 10 * f + g = 90.
Proof.
  apply (generate_date_pins_decode 2026 (Date 1990 3 5)). reflexivity.
Defined.

Lemma projected_pins_are_pins (current_year : Z) (d : date) (p : str) :
  p ∈ generate_date_pins current_year d →
  (length p = 4%nat ∨ length p = 6%nat) ∧ forallb ascii_digit p = true.
Proof.
  destruct (_is_valid_date d) eqn:Hv.
  - rewrite generate_date_pins_valid by done.
    destruct (valid_date_ranges d Hv) as [Hm Hd].
    assert (Hy : 0 ≤ year d `mod` 100 < 100)
      by (apply Z.mod_pos_bound; lia).
    destruct (two_digits_inv _ (format_02d_two_digits (day d) ltac:(lia)))
      as [Ld Dd].
    destruct (two_digits_inv _
                (format_02d_two_digits (month d) ltac:(lia))) as [Lm Dm].
    destruct (two_digits_inv _ (format_02d_two_digits _ Hy)) as [Ly Dy].
    unfold date_pins. cbv zeta. intros Hp. set_unfold.
    destruct Hp as [[[[-> | ->] | ->] | ->] | ->];
      rewrite !length_app, !forallb_app, ?Ld, ?Lm, ?Ly, ?Dd, ?Dm, ?Dy;
      auto.
  - rewrite generate_date_pins_invalid by done. set_solver.
Qed.

(** Every projected PIN is a PIN: four or six ASCII digits. *)
Theorem generate_date_pins_are_pins (current_year : Z) (d : date) (p : str) :
  p ∈ generate_date_pins current_year d →
  (length p = 4%nat ∨ length p = 6%nat) ∧ forallb ascii_digit p = true.
Proof. apply projected_pins_are_pins. Qed.

Lemma generate_date_pins_are_pins_witness :
  (length (py "900305") = 4%nat ∨ length (py "900305") = 6%nat)
  ∧ forallb ascii_digit (py "900305") = true.
Proof.
  apply (generate_date_pins_are_pins 2026 (Date 1990 3 5)).
  rewrite generate_date_pins_valid by reflexivity. by vm_compute.
Defined.

(** The projection reads the year modulo 100 only. *)
Theorem generate_date_pins_century (year1 year2 : Z) (d1 d2 : date) :
  _is_valid_date d1 = true → _is_valid_date d2 = true →
  day d1 = day d2 → month d1 = month d2 →
  year d1 `mod` 100 = year d2 `mod` 100 →
  generate_date_pins year1 d1 = generate_date_pins year2 d2.
Proof.
  intros Hv1 Hv2 Hd Hm Hy. rewrite !generate_date_pins_valid by done.
  unfold date_pins. by rewrite Hd, Hm, Hy.
Qed.

Lemma generate_date_pins_century_witness :
  generate_date_pins 2026 (Date 1890 3 5)
  = generate_date_pins 1950 (Date 2090 3 5).
Proof.
  apply generate_date_pins_century; reflexivity.
Defined.

(** ** The classifier, further *)

(** The classifier, as its gate, its structural test and its three date
    tests. *)
Lemma check_pin_strength_eq (y : Z) (pin : str) (a b c : option date) :
  check_pin_strength y pin a b c
  = if gate_fails pin then Returns (Verdict "STRONG" [])
    else common ← commonly_used pin;
         Returns (verdict_of (reasons_of common (matches_date y pin a)
                                (matches_date y pin b) (matches_date y pin c))).
Proof.
  unfold check_pin_strength. fold (gate_fails pin).
  destruct (gate_fails pin); [done|].
  destruct (commonly_used pin) as [common|e]; [|done]. simpl.
  by destruct common, (matches_date y pin a), (matches_date y pin b),
    (matches_date y pin c).
Qed.

Lemma matches_date_iff (y : Z) (pin : str) (dob : option date) :
  matches_date y pin dob = true
  ↔ ∃ d, dob = Some d ∧ pin ∈ generate_date_pins y d.
Proof.
  destruct dob as [d|]; simpl; [|naive_solver].
  rewrite andb_true_iff, bool_decide_eq_true. split.
  - intros [_ Hin]. eauto.
  - intros (d' & [= <-] & Hin). split; [|done].
    destruct (_is_valid_date d) eqn:Hv; [done|].
    rewrite generate_date_pins_invalid in Hin by done. set_solver.
Qed.

Lemma projected_pin_passes (y : Z) (d : date) (p : str) :
  p ∈ generate_date_pins y d →
  gate_fails p = false ∧ ∃ common, commonly_used p = Returns common.
Proof.
  intros [Hlen Hdig]%projected_pins_are_pins.
  assert (Hne : p ≠ []) by (intros ->; simpl in Hlen; lia).
  split.
  - unfold gate_fails. rewrite (isdigit_ascii p Hne Hdig).
    rewrite (bool_decide_eq_true_2 (p ≠ []) Hne).
    rewrite bool_decide_eq_true_2; [done|]. set_unfold. lia.
  - destruct (commonly_used_cases p) as [H | (_ & c & Hin & Hc)];
      [lia|done|].
    rewrite forallb_forall in Hdig.
    apply list_elem_of_In, Hdig in Hin. unfold int in Hc.
    by rewrite (ascii_digit_decimal c Hin) in Hc.
Qed.

Lemma reasons_of_self (common self spouse anniv : bool) :
  REASON_DOB_SELF ∈ reasons_of common self spouse anniv ↔ self = true.
Proof.
  split; [apply reason_self_in|intros ->].
  destruct common, spouse, anniv; vm_compute; repeat constructor.
Qed.

Lemma reasons_of_spouse (common self spouse anniv : bool) :
  REASON_DOB_SPOUSE ∈ reasons_of common self spouse anniv ↔ spouse = true.
Proof.
  split; [apply reason_spouse_in|intros ->].
  destruct common, self, anniv; vm_compute; repeat constructor.
Qed.

Lemma reasons_of_anniversary (common self spouse anniv : bool) :
  REASON_ANNIVERSARY ∈ reasons_of common self spouse anniv ↔ anniv = true.
Proof.
  split; [apply reason_anniversary_in|intros ->].
  destruct common, self, spouse; vm_compute; repeat constructor.
Qed.

Lemma reasons_of_common (common self spouse anniv : bool) :
  REASON_COMMONLY_USED ∈ reasons_of common self spouse anniv ↔ common = true.
Proof.
  split.
  - destruct common, self, spouse, anniv; solve_reason_in.
  - intros ->. destruct self, spouse, anniv; vm_compute; repeat constructor.
Qed.

Lemma reasons_of_sublist (common self spouse anniv : bool) :
  reasons_of common self spouse anniv `sublist_of` REASONS.
Proof.
  destruct common, self, spouse, anniv; vm_compute;
    repeat first [apply sublist_nil | apply sublist_skip | apply sublist_cons].
Qed.

(** Which reason is in the verdict, and when. *)
Theorem reasons_iff (current_year : Z) (pin : str)
    (dob_self dob_spouse anniversary : option date) (v : verdict) :
  check_pin_strength current_year pin dob_self dob_spouse anniversary
  = Returns v →
  (REASON_COMMONLY_USED ∈ reasons v
   ↔ gate_fails pin = false ∧ commonly_used pin = Returns true)
  ∧ (REASON_DOB_SELF ∈ reasons v
     ↔ ∃ d, dob_self = Some d ∧ pin ∈ generate_date_pins current_year d)
  ∧ (REASON_DOB_SPOUSE ∈ reasons v
     ↔ ∃ d, dob_spouse = Some d ∧ pin ∈ generate_date_pins current_year d)
  ∧ (REASON_ANNIVERSARY ∈ reasons v
     ↔ ∃ d, anniversary = Some d ∧ pin ∈ generate_date_pins current_year d).
Proof.
  rewrite check_pin_strength_eq. destruct (gate_fails pin) eqn:Hg.
  - intros [= <-]. cbn [reasons].
    assert (Hno : ∀ d, pin ∉ generate_date_pins current_year d).
    { intros d [Hg' _]%projected_pin_passes. congruence. }
    split_and!; (split; [by intros ?%elem_of_nil|]); naive_solver.
  - destruct (commonly_used pin) as [common|e]; [|done].
    intros [= <-]. cbn [reasons verdict_of].
    rewrite reasons_of_common, reasons_of_self, reasons_of_spouse,
      reasons_of_anniversary, !matches_date_iff.
    split_and!; [|done..]. naive_solver.
Qed.

Lemma reasons_iff_witness :
  check_pin_strength 2026 (py "0503") (Some (Date 1990 3 5)) None None
  = Returns (Verdict "WEAK" [REASON_DOB_SELF])
  ∧ (REASON_DOB_SELF ∈ reasons (Verdict "WEAK" [REASON_DOB_SELF])
     ↔ ∃ d, Some (Date 1990 3 5) = Some d
            ∧ py "0503" ∈ generate_date_pins 2026 d).
Proof.
  assert (H : check_pin_strength 2026 (py "0503") (Some (Date 1990 3 5))
                None None = Returns (Verdict "WEAK" [REASON_DOB_SELF]))
    by (by vm_compute).
  split; [exact H|].
  exact (proj1 (proj2 (reasons_iff _ _ _ _ _ _ H))).
Defined.

(** The reasons come in the fixed order, each at most once. *)
Theorem reasons_in_fixed_order (current_year : Z) (pin : str)
    (dob_self dob_spouse anniversary : option date) (v : verdict) :
  check_pin_strength current_year pin dob_self dob_spouse anniversary
  = Returns v →
  reasons v `sublist_of` REASONS ∧ NoDup (reasons v).
Proof.
  intros Hv. assert (Hsub : reasons v `sublist_of` REASONS).
  { rewrite check_pin_strength_eq in Hv. destruct (gate_fails pin).
    - injection Hv as <-. apply sublist_nil_l.
    - destruct (commonly_used pin) as [common|e]; [|done].
      injection Hv as <-. apply reasons_of_sublist. }
  split; [done|]. apply (sublist_NoDup _ REASONS); [|done].
  apply (bool_decide_unpack _). by vm_compute.
Qed.

Lemma reasons_in_fixed_order_witness :
  reasons (Verdict "WEAK" [REASON_COMMONLY_USED]) `sublist_of` REASONS
  ∧ NoDup (reasons (Verdict "WEAK" [REASON_COMMONLY_USED])).
Proof.
  apply (reasons_in_fixed_order 2026 (py "1234") None None None).
  by vm_compute.
Defined.

(** A PIN projected from a date is WEAK, with the reason of the role the
    date is supplied in. *)
Theorem projected_pin_is_weak (current_year : Z) (d : date) (p : str)
    (other1 other2 : option date) :
  p ∈ generate_date_pins current_year d →
  (∃ v, check_pin_strength current_year p (Some d) other1 other2 = Returns v
        ∧ strength v = "WEAK" ∧ REASON_DOB_SELF ∈ reasons v)
  ∧ (∃ v, check_pin_strength current_year p other1 (Some d) other2
          = Returns v
          ∧ strength v = "WEAK" ∧ REASON_DOB_SPOUSE ∈ reasons v)
  ∧ (∃ v, check_pin_strength current_year p other1 other2 (Some d)
          = Returns v
          ∧ strength v = "WEAK" ∧ REASON_ANNIVERSARY ∈ reasons v).
Proof.
  intros Hin.
  destruct (projected_pin_passes _ _ _ Hin) as [Hg [common Hc]].
  assert (Hm : matches_date current_year p (Some d) = true)
    by (apply matches_date_iff; eauto).
  rewrite !check_pin_strength_eq, Hg, Hc, Hm. cbn [mbind result_bind].
  split_and!; eexists; (split; [done|]); cbn [strength reasons verdict_of].
  - assert (Hr := proj2 (reasons_of_self common true
      (matches_date current_year p other1)
      (matches_date current_year p other2)) eq_refl).
    split; [|done]. case_bool_decide as Hne; [done|].
    rewrite Hne in Hr. by apply elem_of_nil in Hr.
  - assert (Hr := proj2 (reasons_of_spouse common
      (matches_date current_year p other1) true
      (matches_date current_year p other2)) eq_refl).
    split; [|done]. case_bool_decide as Hne; [done|].
    rewrite Hne in Hr. by apply elem_of_nil in Hr.
  - assert (Hr := proj2 (reasons_of_anniversary common
      (matches_date current_year p other1)
      (matches_date current_year p other2) true) eq_refl).
    split; [|done]. case_bool_decide as Hne; [done|].
    rewrite Hne in Hr. by apply elem_of_nil in Hr.
Qed.

Lemma projected_pin_is_weak_witness :
  ∃ v, check_pin_strength 2026 (py "900305") None (Some (Date 1990 3 5)) None
       = Returns v
       ∧ strength v = "WEAK" ∧ REASON_DOB_SPOUSE ∈ reasons v.
Proof.
  apply (projected_pin_is_weak 2026 (Date 1990 3 5) (py "900305") None None).
  rewrite generate_date_pins_valid by reflexivity. by vm_compute.
Defined.

(** Dates add reasons and nothing else. *)
Theorem dates_only_add_reasons (current_year : Z) (pin : str)
    (dob_self dob_spouse anniversary : option date) :
  (∀ e, check_pin_strength current_year pin dob_self dob_spouse anniversary
        = Raises e
        ↔ check_pin_strength current_year pin None None None = Raises e)
  ∧ (∀ v0, check_pin_strength current_year pin None None None = Returns v0 →
       ∃ v, check_pin_strength current_year pin dob_self dob_spouse
              anniversary = Returns v
            ∧ reasons v0 `sublist_of` reasons v
            ∧ (strength v0 = "WEAK" → strength v = "WEAK")).
Proof.
  rewrite !check_pin_strength_eq. destruct (gate_fails pin).
  - split; [done|]. intros v0 [= <-]. eexists. split; [done|]. done.
  - destruct (commonly_used pin) as [common|e]; cbn [mbind result_bind].
    + split; [done|]. intros v0 [= <-]. eexists. split; [done|].
      cbn [reasons strength verdict_of matches_date].
      destruct common, (matches_date current_year pin dob_self),
        (matches_date current_year pin dob_spouse),
        (matches_date current_year pin anniversary); vm_compute;
        (split; [|done]);
        repeat first [apply sublist_nil | apply sublist_skip
                     | apply sublist_cons].
    + split; [done|]. done.
Qed.

Lemma dates_only_add_reasons_witness :
  ∃ v, check_pin_strength 2026 (py "0503") (Some (Date 1990 3 5)) None None
       = Returns v
       ∧ reasons (Verdict "STRONG" []) `sublist_of` reasons v
       ∧ (strength (Verdict "STRONG" []) = "WEAK" → strength v = "WEAK").
Proof.
  apply (proj2 (dates_only_add_reasons 2026 (py "0503")
                  (Some (Date 1990 3 5)) None None)).
  by vm_compute.
Defined.

(** ** The test suite *)

Lemma run_test_current_year (y1 y2 : Z) (test : test_case) :
  run_test y1 test = run_test y2 test.
Proof.
  unfold run_test. by rewrite (check_pin_strength_current_year y1 y2).
Qed.

Lemma run_tests_passed_current_year (y1 y2 : Z) :
  run_tests_passed y1 = run_tests_passed y2.
Proof.
  unfold run_tests_passed. generalize 0. generalize test_cases.
  induction l as [|test l IH]; intros passed; simpl; [done|].
  by rewrite (run_test_current_year y1 y2), IH.
Qed.

Lemma failing_tests_current_year (y1 y2 : Z) (l : list test_case) :
  filter (λ test, run_test y1 test = false) l
  = filter (λ test, run_test y2 test = false) l.
Proof.
  apply list_filter_iff. intros test.
  by rewrite (run_test_current_year y1 y2).
Qed.

(** [run_tests] returns [False]: 24 of the 30 cases pass. *)
Theorem run_tests_fails (current_year : Z) :
  run_tests current_year = false
  ∧ run_tests_passed current_year = 24
  ∧ length test_cases = 30%nat
  ∧ test_name <$> filter (λ test, run_test current_year test = false)
                    test_cases
    = [ "Strong PIN - corners in a random order";
        "Keypad - horizontal line";
        "Keypad - diagonal line";
        "Keypad - corners not in sequence";
        "Multiple reasons - Sequence and DOB";
        "Multiple reasons - Repetition and Anniversary" ].
Proof.
  unfold run_tests.
  rewrite (run_tests_passed_current_year current_year 2000).
  rewrite (failing_tests_current_year current_year 2000).
  by vm_compute.
Qed.

(** ** All four-digit PINs *)

Lemma four_digit_pins_spec (p : str) :
  p ∈ four_digit_pins ↔ length p = 4%nat ∧ forallb ascii_digit p = true.
Proof.
  unfold four_digit_pins. split.
  - intros (a & (b & (c & (d & Hp%list_elem_of_singleton & Hd)%list_elem_of_bind
      & Hc)%list_elem_of_bind & Hb)%list_elem_of_bind & Ha)%list_elem_of_bind.
    subst p. split; [done|]. simpl.
    assert (Hdig : ∀ x, x ∈ ascii_digits → ascii_digit x = true).
    { intros x Hx. unfold ascii_digits in Hx.
      repeat (apply elem_of_cons in Hx as [->|Hx]; [reflexivity|]).
      by apply elem_of_nil in Hx. }
    by rewrite !Hdig.
  - intros [Hlen Hdig].
    destruct p as [|a [|b [|c [|d [|]]]]]; try discriminate Hlen.
    simpl in Hdig. rewrite !andb_true_iff in Hdig.
    destruct Hdig as (Ha & Hb & Hc & Hd & _).
    apply ascii_digit_cases in Ha, Hb, Hc, Hd.
    apply list_elem_of_bind. exists a. split; [|done].
    apply list_elem_of_bind. exists b. split; [|done].
    apply list_elem_of_bind. exists c. split; [|done].
    apply list_elem_of_bind. exists d. split; [|done].
    by apply list_elem_of_singleton.
Qed.

Lemma four_digit_pins_NoDup : NoDup four_digit_pins.
Proof.
  apply (NoDup_fmap_1 number_of_pin).
  assert (number_of_pin <$> four_digit_pins = N.of_nat <$> seq 0 (Z.to_nat 10000)) as ->
    by (by vm_compute).
  apply NoDup_fmap_2; [apply _|apply NoDup_seq].
Qed.

(** Of the 10000 PINs of four ASCII digits, with no dates, 4550 are WEAK;
    [is_keypad_pattern] alone accepts 4470 of them, and [is_sequence],
    [is_repetition] and [is_palindrome] accept 100 each. *)
Theorem weak_four_digit_pins (current_year : Z) :
  (∀ p, p ∈ four_digit_pins
        ↔ length p = 4%nat ∧ forallb ascii_digit p = true)
  ∧ NoDup four_digit_pins
  ∧ length four_digit_pins = (Z.to_nat 10000)
  ∧ count (λ p, is_weak (check_pin_strength current_year p None None None))
      four_digit_pins = 4550%nat
  ∧ count (λ p, returns_true (is_keypad_pattern p)) four_digit_pins
    = 4470%nat
  ∧ count (λ p, returns_true (is_sequence p)) four_digit_pins = 100%nat
  ∧ count is_repetition four_digit_pins = 100%nat
  ∧ count is_palindrome four_digit_pins = 100%nat.
Proof.
  split; [apply four_digit_pins_spec|].
  split; [apply four_digit_pins_NoDup|].
  split_and!; by vm_compute.
Qed.
